(** * BambuStudio helper scripts: [base64_decoder.py] and
      [slicer_service/examples/client.py]

    A shallow embedding of the two Python scripts, together with the parts of
    the Python runtime they call (text [str.strip], [base64.b64decode] with
    CPython's non-strict [binascii.a2b_base64] loop, [str] of a [dict] of
    strings, file opening, [requests.post], [Response.json]).

    Conventions:
    - a Python [bytes] object is a [list byte];
    - a Python [str] is the list of its Unicode code points ([list N]);
    - the C [unsigned char] arithmetic of [binascii] is done in [N] with the
      truncation to 8 bits written out;
    - the file system is a finite map from paths to nodes, and everything a
      script does to the outside world is recorded in a trace of events;
    - what the standard output can encode, the text decoding of the locale
      and the answers of the service are parameters. *)

From Stdlib Require Import NArith List Lia Bool.
From Stdlib Require Import Strings.Byte Strings.String Strings.Ascii.
From Stdlib Require Import DecimalString DecimalN ZArith.
From Stdlib Require Import Floats.SpecFloat.
From stdpp Require Import base option list gmap.

Local Open Scope N_scope.

(** ** Python values shared by both scripts *)

Definition bytes := list byte.
Definition pystr := list N.

(** An ASCII literal of the source as a [pystr]. *)
Definition lit (s : string) : pystr :=
  List.map (fun a => N_of_ascii a) (list_ascii_of_string s).

(** The text whose code points are the given bytes ([b.decode('latin-1')];
    on ASCII bytes it is [b.decode('ascii')]). *)
Definition codes (b : bytes) : pystr := List.map Byte.to_N b.

(** Truncation of a C [int] to [unsigned char], as a [byte]. *)
Definition uchar (n : N) : byte :=
  match Byte.of_N (n mod 256) with
  | Some b => b
  | None => x00
  end.

(** ** [binascii]: the base64 tables and the decoding loop *)

Module Binascii.

Definition BASE64_PAD : N := 61. (* '=' *)

(** [table_b2a_base64]: the alphabet
    [ABCDEFGHIJKLMNOPQRSTUVWXYZabcdefghijklmnopqrstuvwxyz0123456789+/]
    indexed by a 6-bit value. *)
Definition table_b2a_base64 (n : N) : N :=
  if n <? 26 then 65 + n
  else if n <? 52 then 97 + (n - 26)
  else if n <? 62 then 48 + (n - 52)
  else if n =? 62 then 43
  else 47.

(** [table_a2b_base64]: the inverse table, indexed by a character code.
    Entries that are not in the alphabet hold [(unsigned char) -1 = 255];
    the entry of the pad character holds 0. *)
Definition table_a2b_base64 (c : N) : N :=
  if (65 <=? c) && (c <=? 90) then c - 65
  else if (97 <=? c) && (c <=? 122) then c - 97 + 26
  else if (48 <=? c) && (c <=? 57) then c - 48 + 52
  else if c =? 43 then 62
  else if c =? 47 then 63
  else if c =? BASE64_PAD then 0
  else 255.

(** [binascii.Error], with the two messages [a2b_base64] can give. *)
Inductive Error : Type :=
| Invalid_length (data_chars : N)
    (* "number of data characters (n) cannot be 1 more than a multiple of 4" *)
| Incorrect_padding.

(** The [for] loop of [binascii_a2b_base64_impl] with [strict_mode = 0],
    followed by the check after the loop.  [inr] is the [done:] label. *)
Fixpoint a2b_loop (ascii_data : bytes) (quad_pos leftchar pads : N)
         (bin_data : bytes) : Error + bytes :=
  match ascii_data with
  | [] =>
      if quad_pos =? 0 then inr bin_data
      else if quad_pos =? 1
           then inl (Invalid_length (N.of_nat (length bin_data) / 3 * 4 + 1))
           else inl Incorrect_padding
  | ch :: rest =>
      let this_ch := Byte.to_N ch in
      if this_ch =? BASE64_PAD then
        (* if (quad_pos >= 2 && quad_pos + ++pads >= 4) goto done; continue; *)
        if 2 <=? quad_pos then
          if 4 <=? quad_pos + (pads + 1) then inr bin_data
          else a2b_loop rest quad_pos leftchar (pads + 1) bin_data
        else a2b_loop rest quad_pos leftchar pads bin_data
      else
        let this_ch := table_a2b_base64 this_ch in
        if 64 <=? this_ch then a2b_loop rest quad_pos leftchar pads bin_data
        else
          (* pads = 0; switch (quad_pos) *)
          match quad_pos with
          | 0 => a2b_loop rest 1 this_ch 0 bin_data
          | 1 =>
              a2b_loop rest 2 (N.land this_ch 15) 0
                (bin_data ++ [uchar (N.lor (N.shiftl leftchar 2) (N.shiftr this_ch 4))])
          | 2 =>
              a2b_loop rest 3 (N.land this_ch 3) 0
                (bin_data ++ [uchar (N.lor (N.shiftl leftchar 4) (N.shiftr this_ch 2))])
          | 3 =>
              a2b_loop rest 0 0 0
                (bin_data ++ [uchar (N.lor (N.shiftl leftchar 6) this_ch)])
          | _ => a2b_loop rest quad_pos leftchar 0 bin_data
          end
  end.

Definition a2b_base64 (data : bytes) : Error + bytes :=
  a2b_loop data 0 0 0 [].

(** The character of a 6-bit value. *)
Definition b2a_char (n : N) : byte := uchar (table_b2a_base64 n).

(** [b2a_base64(data, newline=False)]: the standard encoding (RFC 4648,
    section 4), three bytes to four characters, the last group padded. *)
Fixpoint b2a_base64 (bin_data : bytes) : bytes :=
  match bin_data with
  | [] => []
  | [x] =>
      let x := Byte.to_N x in
      [ b2a_char (N.shiftr x 2);
        b2a_char (N.shiftl (N.land x 3) 4);
        uchar BASE64_PAD; uchar BASE64_PAD ]
  | [x; y] =>
      let x := Byte.to_N x in
      let y := Byte.to_N y in
      [ b2a_char (N.shiftr x 2);
        b2a_char (N.lor (N.shiftl (N.land x 3) 4) (N.shiftr y 4));
        b2a_char (N.shiftl (N.land y 15) 2);
        uchar BASE64_PAD ]
  | x :: y :: z :: rest =>
      let x := Byte.to_N x in
      let y := Byte.to_N y in
      let z := Byte.to_N z in
      b2a_char (N.shiftr x 2)
      :: b2a_char (N.lor (N.shiftl (N.land x 3) 4) (N.shiftr y 4))
      :: b2a_char (N.lor (N.shiftl (N.land y 15) 2) (N.shiftr z 6))
      :: b2a_char (N.land z 63)
      :: b2a_base64 rest
  end.

(** A character the non-strict loop looks at: an alphabet character or
    the pad.  Every other character is skipped. *)
Definition is_alphabet (ch : byte) : bool :=
  negb (Byte.to_N ch =? BASE64_PAD) && (table_a2b_base64 (Byte.to_N ch) <? 64).

Definition is_pad (ch : byte) : bool := Byte.to_N ch =? BASE64_PAD.

Definition significant (ch : byte) : bool := is_alphabet ch || is_pad ch.

End Binascii.

(** ** The Python runtime the scripts run on *)

Module Py.

(** [Py_UNICODE_ISSPACE]: the code points [str.strip()] removes. *)
Definition isspace (c : N) : bool :=
  ((9 <=? c) && (c <=? 13)) || ((28 <=? c) && (c <=? 32))
  || (c =? 133) || (c =? 160) || (c =? 5760)
  || ((8192 <=? c) && (c <=? 8202))
  || (c =? 8232) || (c =? 8233) || (c =? 8239) || (c =? 8287) || (c =? 12288).

Fixpoint lstrip (s : pystr) : pystr :=
  match s with
  | [] => []
  | c :: rest => if isspace c then lstrip rest else s
  end.

Definition rstrip (s : pystr) : pystr := rev (lstrip (rev s)).

Definition strip (s : pystr) : pystr := rstrip (lstrip s).

(** [str.replace(old, new)] for one-character [old] and [new]. *)
Definition replace (old new : N) (s : pystr) : pystr :=
  List.map (fun c => if c =? old then new else c) s.

(** [str(n)] for a non-negative [int]. *)
Definition str_of_N (n : N) : pystr :=
  lit (NilEmpty.string_of_uint (N.to_uint n)).

(** The exceptions the scripts can meet. *)
Inductive exn : Type :=
| OSError (path : pystr)         (* FileNotFoundError, PermissionError, ... *)
| UnicodeDecodeError
| UnicodeEncodeError             (* text the standard output cannot encode *)
| ValueError                     (* non-ASCII argument, bad format code *)
| binascii_Error (e : Binascii.Error)
| JSONDecodeError
| TypeError
| KeyError (key : pystr)
| OverflowError
| RequestException.              (* any transport failure of [requests] *)

(** How a step stops early: an exception, or [sys.exit(code)]. *)
Inductive abort : Type :=
| Raise (e : exn)
| SystemExit (code : N).

(** [s.encode('ascii')]; [None] is [UnicodeEncodeError]. *)
Definition encode_ascii (s : pystr) : option bytes :=
  if forallb (fun c => c <? 128) s then Some (List.map uchar s) else None.

(** [base64.b64decode(s)] for a [str] argument, [altchars=None] and
    [validate=False]: [_bytes_from_decode_data] then
    [binascii.a2b_base64(s, strict_mode=False)]. *)
Definition b64decode (s : pystr) : exn + bytes :=
  match encode_ascii s with
  | None => inl ValueError
  | Some data =>
      match Binascii.a2b_base64 data with
      | inl e => inl (binascii_Error e)
      | inr decoded => inr decoded
      end
  end.

(** [base64.b64encode(b)]. *)
Definition b64encode (b : bytes) : bytes := Binascii.b2a_base64 b.

(** *** Files, requests and the trace of events *)

(** A path is either a regular file with its content, or something that
    cannot be opened (a directory, a file without permission, a path whose
    parent is missing).  A path not in the map does not exist: it cannot be
    read and is created when opened for writing.  The map is keyed by the
    path as the script spells it: what a write through one path does to a
    file reached through another spelling or through a link is not
    described. *)
Inductive node : Type :=
| Regular (content : bytes)
| Unopenable.

(** One part of [files=]: the field name, the path of the open file object
    and the content [requests] reads from it. *)
Record file_part : Type := FilePart {
  field : pystr;
  handle : pystr;
  payload : bytes
}.

(** A call [requests.post(url, files=files, data=data)]. *)
Record request : Type := Request {
  url : pystr;
  files : list file_part;
  data : list (pystr * pystr)
}.

(** The Python objects [json.loads] builds.  A [dict] is the list of its
    items; keys are distinct, and a lookup takes the first binding. *)
#[warnings="-register-all"]
Inductive pyobj : Type :=
| PNone
| PBool (b : bool)
| PInt (z : Z)
| PFloat (x : spec_float)
| PStr (s : pystr)
| PList (items : list pyobj)
| PDict (items : list (pystr * pyobj)).

(** The pieces of a formatted line.  The characters of [str(v)] for an
    object that is not a string, and of [format(v, '.2f')], are produced by
    the interpreter's number and object formatting and are kept symbolic. *)
Inductive piece : Type :=
| Text (s : pystr)
| Str (v : pyobj)          (* {v} *)
| Fixed2 (v : pyobj).      (* {v:.2f} *)

Inductive event : Type :=
| Printed (line : list piece)          (* print(line) *)
| OpenedRead (path : pystr)            (* open(path, 'r') or open(path, 'rb') *)
| OpenedWrite (path : pystr)           (* open(path, 'wb'), truncating *)
| Written (path : pystr) (b : bytes)   (* f.write(b) *)
| Posted (req : request).              (* one call requests.post(...) *)

Record world : Type := World {
  fs : gmap pystr node;
  trace : list event
}.

(** *** The monad of a running script *)

Definition M (A : Type) : Type := world -> (abort + A) * world.

Definition ret {A} (a : A) : M A := fun w => (inr a, w).

Definition bind {A B} (m : M A) (k : A -> M B) : M B :=
  fun w =>
    match m w with
    | (inl stop, w') => (inl stop, w')
    | (inr a, w') => k a w'
    end.

Definition raise {A} (e : exn) : M A := fun w => (inl (Raise e), w).

Definition sys_exit {A} (code : N) : M A := fun w => (inl (SystemExit code), w).

Definition emit (e : event) : M unit :=
  fun w => (inr tt, World (fs w) (trace w ++ [e])).

(** A piece made of ASCII characters only: every encoding of the standard
    output can write it. *)
Definition ascii_piece (p : piece) : bool :=
  match p with
  | Text s | Str (PStr s) => forallb (fun c => c <? 128) s
  | Fixed2 _ => true
  | Str _ => false
  end.

(** Whether [print(line)] succeeds.  [stdout_accepts] says which lines the
    encoding of the standard output can encode; it is consulted for every
    line that is not plain ASCII (emoji on a standard output that is not
    UTF-8, a lone surrogate coming from [sys.argv] or from a JSON string). *)
Definition printable (stdout_accepts : list piece -> bool) (line : list piece) : bool :=
  forallb ascii_piece line || stdout_accepts line.

(** [print(line)]: the line is encoded as a whole, or [UnicodeEncodeError]
    is raised and nothing is written. *)
Definition print (stdout_accepts : list piece -> bool) (line : list piece) : M unit :=
  if printable stdout_accepts line then emit (Printed line)
  else raise UnicodeEncodeError.

(** Lift a pure computation that may raise. *)
Definition lift {A} (r : exn + A) : M A :=
  match r with
  | inl e => raise e
  | inr a => ret a
  end.

(** A path with a NUL character names no file: [open] raises [ValueError]
    (embedded null byte) for it, and no path of the map holds one. *)
Definition has_nul (path : pystr) : bool := existsb (N.eqb 0) path.

(** [open(path, 'rb')] (or ['r']) and the content behind the handle. *)
Definition open_read (path : pystr) : M bytes :=
  fun w =>
    match fs w !! path with
    | Some (Regular content) =>
        (inr content, World (fs w) (trace w ++ [OpenedRead path]))
    | Some Unopenable => (inl (Raise (OSError path)), w)
    | None => (inl (Raise (if has_nul path then ValueError else OSError path)), w)
    end.

(** [open(path, 'wb')]: creates or truncates the file. *)
Definition open_write (path : pystr) : M unit :=
  fun w =>
    match fs w !! path with
    | Some Unopenable => (inl (Raise (OSError path)), w)
    | Some (Regular _) =>
        (inr tt, World (<[path := Regular []]> (fs w)) (trace w ++ [OpenedWrite path]))
    | None =>
        if has_nul path then (inl (Raise ValueError), w)
        else (inr tt, World (<[path := Regular []]> (fs w)) (trace w ++ [OpenedWrite path]))
    end.

(** [f.write(b)] on a file opened with [open_write], flushed at the end of
    the [with] block. *)
Definition file_write (path : pystr) (b : bytes) : M unit :=
  fun w =>
    match fs w !! path with
    | Some (Regular content) =>
        (inr tt, World (<[path := Regular (content ++ b)]> (fs w))
                       (trace w ++ [Written path b]))
    | _ => (inl (Raise (OSError path)), w)
    end.

(** The exit status of the interpreter: 0 at the end of the script, the
    argument of [sys.exit], 1 after an uncaught exception. *)
Definition exit_status {A} (r : abort + A) : N :=
  match r with
  | inr _ => 0
  | inl (SystemExit code) => code
  | inl (Raise _) => 1
  end.

End Py.

#[global] Instance M_ret : MRet Py.M := @Py.ret.
#[global] Instance M_bind : MBind Py.M := fun A B k m => Py.bind m k.

(** ** [base64_decoder.py] *)

Section Decoder.

(** Text-mode decoding of a file's bytes (the locale's codec with universal
    newlines); [None] is [UnicodeDecodeError]. *)
Variable locale_decode : bytes -> option pystr.

Definition input_path : pystr := lit "base64_input.txt".
Definition output_path : pystr := lit "decoded_file.gcode".

(** [with open(path, "r") as f: ... f.read()] *)
Definition read_text (path : pystr) : Py.M pystr :=
  raw ← Py.open_read path;
  match locale_decode raw with
  | Some text => Py.ret text
  | None => Py.raise Py.UnicodeDecodeError
  end.

(** The module body. *)
Definition base64_decoder : Py.M unit :=
  text ← read_text input_path;
  let base64_string := Py.strip text in
  decoded_bytes ← Py.lift (Py.b64decode base64_string);
  Py.open_write output_path;;
  Py.file_write output_path decoded_bytes.

End Decoder.

(** Text-mode decoding under a Latin-1 locale: every byte is its own code
    point, and universal newlines turn CR LF and CR into LF. *)
Fixpoint universal_newlines (s : pystr) : pystr :=
  match s with
  | [] => []
  | 13 :: rest =>
      match rest with
      | 10 :: rest' => 10 :: universal_newlines rest'
      | _ => 10 :: universal_newlines rest
      end
  | c :: rest => c :: universal_newlines rest
  end.

Definition latin1_decode (raw : bytes) : option pystr :=
  Some (universal_newlines (codes raw)).

(** ** [slicer_service/examples/client.py] *)

(** [repr(s)] of a [str]: double quotes when [s] has a single quote and no
    double quote, single quotes otherwise; backslash, the quote and control
    characters escaped.  Code points above 127 are copied (the escapes of
    non-printable ones need the Unicode database; the strings of the client
    are ASCII). *)
Definition hexdigit (n : N) : N := if n <? 10 then 48 + n else 87 + n.

Definition repr_char (quote c : N) : pystr :=
  if c =? 92 then [92; 92]
  else if c =? quote then [92; quote]
  else if c =? 9 then [92; 116]
  else if c =? 10 then [92; 110]
  else if c =? 13 then [92; 114]
  else if (c <? 32) || (c =? 127) then [92; 120; hexdigit (c / 16); hexdigit (c mod 16)]
  else [c].

Definition repr_str (s : pystr) : pystr :=
  let quote :=
    if existsb (N.eqb 39) s && negb (existsb (N.eqb 34) s) then 34 else 39 in
  [quote] ++ List.concat (List.map (repr_char quote) s) ++ [quote].

(** [str(d)] of a [dict] of strings. *)
Fixpoint join_items (d : list (pystr * pystr)) : pystr :=
  match d with
  | [] => []
  | [(k, v)] => repr_str k ++ lit ": " ++ repr_str v
  | (k, v) :: rest => repr_str k ++ lit ": " ++ repr_str v ++ lit ", " ++ join_items rest
  end.

Definition str_dict (d : list (pystr * pystr)) : pystr :=
  lit "{" ++ join_items d ++ lit "}".

(** [obj[key]] with a [str] key. *)
Fixpoint lookup_item (key : pystr) (items : list (pystr * Py.pyobj)) : option Py.pyobj :=
  match items with
  | [] => None
  | (k, v) :: rest => if bool_decide (k = key) then Some v else lookup_item key rest
  end.

Definition getitem (obj : Py.pyobj) (key : pystr) : Py.exn + Py.pyobj :=
  match obj with
  | Py.PDict items =>
      match lookup_item key items with
      | Some v => inr v
      | None => inl (Py.KeyError key)
      end
  | _ => inl Py.TypeError
  end.

(** [float(n)] raises [OverflowError] when [n] rounds to 2^1024 or more. *)
Definition int_fits_float (z : Z) : bool :=
  (Z.abs z <? 2 ^ 1024 - 2 ^ 970)%Z.

(** The field [{v:.2f}] of an f-string. *)
Definition format_2f (v : Py.pyobj) : Py.exn + Py.piece :=
  match v with
  | Py.PFloat _ | Py.PBool _ => inr (Py.Fixed2 v)
  | Py.PInt z => if int_fits_float z then inr (Py.Fixed2 v) else inl Py.OverflowError
  | Py.PStr _ => inl Py.ValueError
  | Py.PNone | Py.PList _ | Py.PDict _ => inl Py.TypeError
  end.

(** The field [{v}] of an f-string. *)
Definition format_str (v : Py.pyobj) : Py.piece :=
  match v with
  | Py.PStr s => Py.Text s
  | _ => Py.Str v
  end.

(** [base64.b64decode(obj)] for an object out of a JSON document. *)
Definition b64decode_obj (obj : Py.pyobj) : Py.exn + bytes :=
  match obj with
  | Py.PStr s => Py.b64decode s
  | _ => inl Py.TypeError
  end.

(** A [requests.Response] as the client uses it: the status code and what
    [response.json()] gives ([None]: the body is not JSON). *)
Record response : Type := Response {
  status_code : N;
  json : option Py.pyobj
}.

Section Client.

(** What the standard output can encode (see [Py.printable]). *)
Variable stdout_accepts : list Py.piece -> bool.

(** The network and the service behind [requests.post]. *)
Variable requests_post : Py.request -> Py.exn + response.

(** One call of [requests.post]: the event records the call, and
    [requests_post] gives what the call returns or raises.  How many HTTP
    requests the library puts on the wire for it (none when the connection
    is refused, several when it follows a redirect) is not modelled. *)
Definition post (req : Py.request) : Py.M response :=
  Py.emit (Py.Posted req);;
  Py.lift (requests_post req).

Definition response_json (r : response) : Py.M Py.pyobj :=
  match json r with
  | Some obj => Py.ret obj
  | None => Py.raise Py.JSONDecodeError
  end.

Definition config : list (pystr * pystr) :=
  [ (lit "printer_preset", lit "Bambu Lab A1");
    (lit "filament_preset", lit "Bambu PLA Basic @BBL A1");
    (lit "process_preset", lit "0.20mm Standard @BBL A1") ].

Definition slice_model (model_path output_path server_url : pystr) : Py.M unit :=
  Py.print stdout_accepts [Py.Text ([128193] ++ lit " Loading model: " ++ model_path)];;
  f ← Py.open_read model_path;
  let files := [Py.FilePart (lit "model") model_path f] in
  let data := [(lit "config", Py.replace 39 34 (str_dict config))] in
  Py.print stdout_accepts [Py.Text ([128640] ++ lit " Sending to " ++ server_url ++ lit "/slice...")];;
  response ← post (Py.Request (server_url ++ lit "/slice") files data);
  if negb (status_code response =? 200) then
    Py.print stdout_accepts [Py.Text ([10060] ++ lit " Error: " ++ Py.str_of_N (status_code response))];;
    body ← response_json response;
    Py.print stdout_accepts [Py.Str body];;
    Py.sys_exit 1
  else
    result ← response_json response;
    stats ← Py.lift (getitem result (lit "stats"));
    Py.print stdout_accepts [Py.Text ([10; 9989] ++ lit " Slicing completed!")];;
    job_id ← Py.lift (getitem result (lit "job_id"));
    Py.print stdout_accepts [Py.Text (lit "   Job ID: "); format_str job_id];;
    print_time ← Py.lift (getitem stats (lit "estimated_print_time"));
    Py.print stdout_accepts [Py.Text (lit "   Print Time: "); format_str print_time];;
    filament ← Py.lift (getitem stats (lit "total_used_filament"));
    filament ← Py.lift (format_2f filament);
    weight ← Py.lift (getitem stats (lit "total_weight"));
    weight ← Py.lift (format_2f weight);
    Py.print stdout_accepts [Py.Text (lit "   Filament: "); filament; Py.Text (lit " mm (");
              weight; Py.Text (lit " g)")];;
    cost ← Py.lift (getitem stats (lit "total_cost"));
    cost ← Py.lift (format_2f cost);
    Py.print stdout_accepts [Py.Text (lit "   Cost: $"); cost];;
    gcode ← Py.lift (getitem result (lit "gcode"));
    gcode_bytes ← Py.lift (b64decode_obj gcode);
    Py.open_write output_path;;
    Py.file_write output_path gcode_bytes;;
    Py.print stdout_accepts [Py.Text ([10; 128190] ++ lit " G-code saved to: " ++ output_path)];;
    Py.print stdout_accepts [Py.Text (lit "   Size: " ++ Py.str_of_N (N.of_nat (length gcode_bytes))
                       ++ lit " bytes")].

Definition default_server_url : pystr := lit "http://localhost:8080".

(** The [__main__] block; [argv] is [sys.argv]. *)
Definition main (argv : list pystr) : Py.M unit :=
  if (length argv <? 3)%nat then
    Py.print stdout_accepts [Py.Text (lit "Usage: python3 client.py <model.stl> <output.gcode>")];;
    Py.print stdout_accepts [Py.Text ([10] ++ lit "Example:")];;
    Py.print stdout_accepts [Py.Text (lit "  python3 client.py cube.stl output.gcode")];;
    Py.sys_exit 1
  else
    slice_model (nth 1 argv []) (nth 2 argv []) default_server_url.

End Client.

(** ** Checking a property of bytes on all 256 of them *)

Definition all_bytes : list byte :=
  List.map (fun n => uchar (N.of_nat n)) (seq 0 256).

Definition for_all_bytes (P : byte -> bool) : bool := forallb P all_bytes.

(** The arithmetic of a group on two consecutive bytes [a], [b]: the 6-bit
    values the encoder cuts out of them are below 64, and the shifts and
    masks of the decoder put the bytes back together. *)
Definition sextet2 (A B : N) : N := N.lor (N.shiftl (N.land A 3) 4) (N.shiftr B 4).
Definition sextet3 (A B : N) : N := N.lor (N.shiftl (N.land A 15) 2) (N.shiftr B 6).

Definition group_ok (a b : byte) : bool :=
  let A := Byte.to_N a in
  let B := Byte.to_N b in
  (N.shiftr A 2 <? 64) && (sextet2 A B <? 64) && (sextet3 A B <? 64)
  && (N.land B 63 <? 64)
  && (N.shiftl (N.land A 3) 4 <? 64) && (N.shiftl (N.land A 15) 2 <? 64)
  && Byte.eqb (uchar (N.lor (N.shiftl (N.shiftr A 2) 2) (N.shiftr (sextet2 A B) 4))) a
  && Byte.eqb (uchar (N.lor (N.shiftl (N.shiftr A 2) 2)
                            (N.shiftr (N.shiftl (N.land A 3) 4) 4))) a
  && (N.land (sextet2 A B) 15 =? N.shiftr B 4)
  && Byte.eqb (uchar (N.lor (N.shiftl (N.shiftr A 4) 4) (N.shiftr (sextet3 A B) 2))) a
  && Byte.eqb (uchar (N.lor (N.shiftl (N.shiftr A 4) 4)
                            (N.shiftr (N.shiftl (N.land A 15) 2) 2))) a
  && Byte.eqb (uchar (N.lor (N.shiftl (N.land (sextet3 A B) 3) 6) (N.land B 63))) b.

(** ** Validity of an encoded string *)

(** A character of the base64 alphabet, as a code point. *)
Definition alphabet_code (c : N) : bool :=
  negb (c =? Binascii.BASE64_PAD) && (c <? 256) && (Binascii.table_a2b_base64 c <? 64).

(** A validly encoded string in the sense of RFC 4648: characters of the
    alphabet only, at most two pad characters and only at the end, and a
    length that is a multiple of 4. *)
Definition valid_base64 (s : pystr) : bool :=
  (length s mod 4 =? 0)%nat
  && match rev s with
     | 61 :: 61 :: body => forallb alphabet_code body
     | 61 :: body => forallb alphabet_code body
     | body => forallb alphabet_code body
     end.

(** The decoding loop stops inside a quad: [n] alphabet characters followed
    by [k] pad characters leave a group unfinished. *)
Definition truncated (n k : nat) : bool :=
  match (n mod 4)%nat with
  | 0%nat => false
  | 1%nat => true
  | 2%nat => (k <? 2)%nat
  | _ => (k =? 0)%nat
  end.

(** The bytes of [G1 X0 Y0] followed by a line feed. *)
Definition gcode_line : bytes := [x47; x31; x20; x58; x30; x20; x59; x30; x0a].

(** ** Concrete worlds for the decoder *)

(** A working directory that holds only [base64_input.txt], with the given
    ASCII text followed by a line feed. *)
Definition input_only (text : string) : Py.world :=
  Py.World {[ input_path := Py.Regular (List.map uchar (lit text) ++ [x0a]) ]} [].

(** ** Vocabulary for the client's runs *)

(** The requests of a trace, in order. *)
Fixpoint posts (t : list Py.event) : list Py.request :=
  match t with
  | [] => []
  | Py.Posted req :: rest => req :: posts rest
  | _ :: rest => posts rest
  end.

(** The serialization of a mapping of strings with double-quoted keys and
    values: [{"k1": "v1", "k2": "v2"}]. *)
Definition quoted (s : pystr) : pystr := [34] ++ s ++ [34].

Fixpoint json_members (d : list (pystr * pystr)) : pystr :=
  match d with
  | [] => []
  | [(k, v)] => quoted k ++ lit ": " ++ quoted v
  | (k, v) :: rest => quoted k ++ lit ": " ++ quoted v ++ lit ", " ++ json_members rest
  end.

Definition json_object_text (d : list (pystr * pystr)) : pystr :=
  lit "{" ++ json_members d ++ lit "}".

(** The request the client builds for a model file with content [f]. *)
Definition slice_request (model_path server_url : pystr) (f : bytes) : Py.request :=
  Py.Request (server_url ++ lit "/slice")
    [Py.FilePart (lit "model") model_path f]
    [(lit "config",
      json_object_text
        [ (lit "printer_preset", lit "Bambu Lab A1");
          (lit "filament_preset", lit "Bambu PLA Basic @BBL A1");
          (lit "process_preset", lit "0.20mm Standard @BBL A1") ])].

(** The events of a run up to and including the request. *)
Definition request_events (model_path server_url : pystr) (f : bytes) : list Py.event :=
  [ Py.Printed [Py.Text ([128193] ++ lit " Loading model: " ++ model_path)];
    Py.OpenedRead model_path;
    Py.Printed [Py.Text ([128640] ++ lit " Sending to " ++ server_url ++ lit "/slice...")];
    Py.Posted (slice_request model_path server_url f) ].

(** A JSON number that [format(v, '.2f')] accepts. *)
Definition is_number (v : Py.pyobj) : bool :=
  match v with
  | Py.PFloat _ => true
  | Py.PInt z => int_fits_float z
  | _ => false
  end.

(** A step that sends no request. *)
Definition sends_nothing {A} (m : Py.M A) : Prop :=
  forall w, posts (Py.trace (snd (m w))) = posts (Py.trace w).

(** What [slice_model] does with the response, once it has it: the part of
    its body after [requests.post] (see [slice_model_run]). *)
Definition on_response (stdout_accepts : list Py.piece -> bool)
           (output_path : pystr) (response : response) : Py.M unit :=
  if negb (status_code response =? 200) then
    Py.print stdout_accepts [Py.Text ([10060] ++ lit " Error: " ++ Py.str_of_N (status_code response))];;
    body ← response_json response;
    Py.print stdout_accepts [Py.Str body];;
    Py.sys_exit 1
  else
    result ← response_json response;
    stats ← Py.lift (getitem result (lit "stats"));
    Py.print stdout_accepts [Py.Text ([10; 9989] ++ lit " Slicing completed!")];;
    job_id ← Py.lift (getitem result (lit "job_id"));
    Py.print stdout_accepts [Py.Text (lit "   Job ID: "); format_str job_id];;
    print_time ← Py.lift (getitem stats (lit "estimated_print_time"));
    Py.print stdout_accepts [Py.Text (lit "   Print Time: "); format_str print_time];;
    filament ← Py.lift (getitem stats (lit "total_used_filament"));
    filament ← Py.lift (format_2f filament);
    weight ← Py.lift (getitem stats (lit "total_weight"));
    weight ← Py.lift (format_2f weight);
    Py.print stdout_accepts [Py.Text (lit "   Filament: "); filament; Py.Text (lit " mm (");
              weight; Py.Text (lit " g)")];;
    cost ← Py.lift (getitem stats (lit "total_cost"));
    cost ← Py.lift (format_2f cost);
    Py.print stdout_accepts [Py.Text (lit "   Cost: $"); cost];;
    gcode ← Py.lift (getitem result (lit "gcode"));
    gcode_bytes ← Py.lift (b64decode_obj gcode);
    Py.open_write output_path;;
    Py.file_write output_path gcode_bytes;;
    Py.print stdout_accepts [Py.Text ([10; 128190] ++ lit " G-code saved to: " ++ output_path)];;
    Py.print stdout_accepts [Py.Text (lit "   Size: " ++ Py.str_of_N (N.of_nat (length gcode_bytes))
                       ++ lit " bytes")].

(** ** Concrete worlds for the client *)

(** A working directory that holds only the model file [cube.stl]. *)
Definition cube_only : Py.world :=
  Py.World {[ lit "cube.stl" := Py.Regular [x73; x6f; x6c; x69; x64] ]} [].

(** The response of the specification's example:
    [{"job_id":"abc","stats":{"estimated_print_time":"1h",
      "total_used_filament":100.5,"total_weight":10.2,"total_cost":1.23},
      "gcode":"WA=="}] with status 200. *)
Definition example_stats : Py.pyobj :=
  Py.PDict
    [ (lit "estimated_print_time", Py.PStr (lit "1h"));
      (lit "total_used_filament", Py.PFloat (S754_finite false 0x19200000000000 (-46)));
      (lit "total_weight", Py.PFloat (S754_finite false 0x14666666666666 (-49)));
      (lit "total_cost", Py.PFloat (S754_finite false 0x13ae147ae147ae (-52))) ].

Definition example_result : Py.pyobj :=
  Py.PDict
    [ (lit "job_id", Py.PStr (lit "abc"));
      (lit "stats", example_stats);
      (lit "gcode", Py.PStr (lit "WA==")) ].

Definition service_ok (req : Py.request) : Py.exn + response :=
  inr (Response 200 (Some example_result)).

(** A service that answers 500 with a JSON body, and one that answers 500
    with a body that is not JSON. *)
Definition service_error_json (req : Py.request) : Py.exn + response :=
  inr (Response 500 (Some (Py.PDict [(lit "error", Py.PStr (lit "slicing failed"))]))).

Definition service_error_html (req : Py.request) : Py.exn + response :=
  inr (Response 500 None).

(** ** Vocabulary for the further properties *)

(** What the decoding loop has read of the current quad and not yet turned
    into output, counted in quarters of a byte: every alphabet character
    brings three, every byte written takes four. *)
Definition quad_credit (quad_pos : N) : nat :=
  match quad_pos with
  | 1 => 3%nat
  | 2 => 2%nat
  | 3 => 1%nat
  | _ => 0%nat
  end.


(** The number a decimal numeral stands for. *)
Definition unlit (s : pystr) : string :=
  string_of_list_ascii (List.map ascii_of_N s).

Definition decimal_value (s : pystr) : option N :=
  option_map N.of_uint (NilEmpty.uint_of_string (unlit s)).

(** The lines of the client that hold more than ASCII literals. *)
Definition loading_line (model_path : pystr) : list Py.piece :=
  [Py.Text ([128193] ++ lit " Loading model: " ++ model_path)].

Definition sending_line (server_url : pystr) : list Py.piece :=
  [Py.Text ([128640] ++ lit " Sending to " ++ server_url ++ lit "/slice...")].

Definition status_line (status : N) : list Py.piece :=
  [Py.Text ([10060] ++ lit " Error: " ++ Py.str_of_N status)].

Definition completed_line : list Py.piece :=
  [Py.Text ([10; 9989] ++ lit " Slicing completed!")].


(** What is left of [slice_model] once the statistics are printed. *)
Definition save_gcode (stdout_accepts : list Py.piece -> bool) (output_path : pystr)
           (result : Py.pyobj) : Py.M unit :=
  gcode ← Py.lift (getitem result (lit "gcode"));
  gcode_bytes ← Py.lift (b64decode_obj gcode);
  Py.open_write output_path;;
  Py.file_write output_path gcode_bytes;;
  Py.print stdout_accepts
    [Py.Text ([10; 128190] ++ lit " G-code saved to: " ++ output_path)];;
  Py.print stdout_accepts
    [Py.Text (lit "   Size: " ++ Py.str_of_N (N.of_nat (length gcode_bytes))
                ++ lit " bytes")].

(** The five lines of the report. *)
Definition report_events (job_id print_time : pystr) (filament weight cost : Py.pyobj)
  : list Py.event :=
  [ Py.Printed [Py.Text ([10; 9989] ++ lit " Slicing completed!")];
    Py.Printed [Py.Text (lit "   Job ID: "); Py.Text job_id];
    Py.Printed [Py.Text (lit "   Print Time: "); Py.Text print_time];
    Py.Printed [Py.Text (lit "   Filament: "); Py.Fixed2 filament;
                Py.Text (lit " mm ("); Py.Fixed2 weight; Py.Text (lit " g)")];
    Py.Printed [Py.Text (lit "   Cost: $"); Py.Fixed2 cost] ].

(** A standard output in UTF-8: every code point but the surrogates can be
    written.  The text of an object that is not a string is its [repr],
    which shows surrogates as escapes. *)
Definition utf8_char (c : N) : bool :=
  (c <? 55296) || ((57343 <? c) && (c <? 1114112)).

Definition utf8_piece (p : Py.piece) : bool :=
  match p with
  | Py.Text s | Py.Str (Py.PStr s) => forallb utf8_char s
  | _ => true
  end.

Definition utf8_stdout (line : list Py.piece) : bool := forallb utf8_piece line.

(** A standard output in ASCII: only what [Py.printable] always accepts. *)
Definition ascii_stdout (line : list Py.piece) : bool := false.

(** A step that leaves the file system as it was. *)
Definition keeps_files {A} (m : Py.M A) : Prop :=
  forall w : Py.world, Py.fs (snd (m w)) = Py.fs w.


(** Strings [repr] shows between single quotes without any escape:
    printable ASCII without quote, double quote and backslash. *)
Definition plain_char (c : N) : bool :=
  (32 <=? c) && (c <? 127) && negb (c =? 34) && negb (c =? 39) && negb (c =? 92).

Definition plain (s : pystr) : bool := forallb plain_char s.

Definition plain_items (d : list (pystr * pystr)) : bool :=
  forallb (fun kv => plain (fst kv) && plain (snd kv)) d.

(** More concrete worlds and services. *)
Definition empty_dir : Py.world := Py.World ∅ [].

Definition output_locked (text : string) : Py.world :=
  Py.World (<[ output_path := Py.Unopenable ]>
              {[ input_path := Py.Regular (List.map uchar (lit text) ++ [x0a]) ]}) [].


Definition service_down (req : Py.request) : Py.exn + response :=
  inl Py.RequestException.

Definition service_ok_html (req : Py.request) : Py.exn + response :=
  inr (Response 200 None).

Definition service_no_stats (req : Py.request) : Py.exn + response :=
  inr (Response 200 (Some (Py.PDict [(lit "job_id", Py.PStr (lit "abc"))]))).

Definition bad_gcode_result : Py.pyobj :=
  Py.PDict
    [ (lit "job_id", Py.PStr (lit "abc"));
      (lit "stats", example_stats);
      (lit "gcode", Py.PStr (lit "W")) ].

Definition service_bad_gcode (req : Py.request) : Py.exn + response :=
  inr (Response 200 (Some bad_gcode_result)).



(** A service that answers 500 with a JSON string holding a lone surrogate. *)
Definition service_error_surrogate (req : Py.request) : Py.exn + response :=
  inr (Response 500 (Some (Py.PStr [56448]))).

(** A working directory whose input file holds [Rz], e with an acute accent
    (Latin-1), [E] and a line feed. *)
Definition non_ascii_input : Py.world :=
  Py.World {[ input_path := Py.Regular [x52; x7a; xe9; x45; x0a] ]} [].

Example a2b_G1 :
  Binascii.a2b_base64 (Binascii.b2a_base64 [x47; x31; x20; x58; x30; x20; x59; x30; x0a])
  = inr [x47; x31; x20; x58; x30; x20; x59; x30; x0a].
Proof. reflexivity. Qed.

Example decoder_run :
  base64_decoder latin1_decode
    (Py.World {[ input_path := Py.Regular (List.map uchar (lit "RzEgWDAgWTAK") ++ [x0a]) ]} [])
  = (inr tt,
     Py.World (<[ output_path := Py.Regular [x47; x31; x20; x58; x30; x20; x59; x30; x0a] ]>
                {[ input_path := Py.Regular (List.map uchar (lit "RzEgWDAgWTAK") ++ [x0a]) ]})
       [Py.OpenedRead input_path; Py.OpenedWrite output_path;
        Py.Written output_path [x47; x31; x20; x58; x30; x20; x59; x30; x0a]]).
Proof. vm_compute. reflexivity. Qed.

Example str_config :
  Py.replace 39 34 (str_dict config)
  = [123; 34] ++ lit "printer_preset" ++ [34; 58; 32; 34] ++ lit "Bambu Lab A1" ++ [34; 44; 32; 34]
    ++ lit "filament_preset" ++ [34; 58; 32; 34] ++ lit "Bambu PLA Basic @BBL A1" ++ [34; 44; 32; 34]
    ++ lit "process_preset" ++ [34; 58; 32; 34] ++ lit "0.20mm Standard @BBL A1" ++ [34; 125].
Proof. reflexivity. Qed.

(** * Properties *)

(** ** Bytes and characters *)

Lemma uchar_to_N (b : byte) : uchar (Byte.to_N b) = b.
Proof.
  unfold uchar. pose proof (Byte.to_N_bounded b) as Hb.
  rewrite N.mod_small by lia. now rewrite Byte.of_to_N.
Qed.

Lemma to_N_uchar (n : N) : n < 256 -> Byte.to_N (uchar n) = n.
Proof.
  intros Hn. unfold uchar. rewrite N.mod_small by lia.
  destruct (Byte.of_N n) as [b|] eqn:E.
  - now apply Byte.to_of_N.
  - apply Byte.of_N_None_iff in E. lia.
Qed.

Lemma in_all_bytes (b : byte) : In b all_bytes.
Proof.
  unfold all_bytes. apply in_map_iff.
  exists (N.to_nat (Byte.to_N b)). split.
  - rewrite N2Nat.id. apply uchar_to_N.
  - apply in_seq. pose proof (Byte.to_N_bounded b). lia.
Qed.

Lemma for_all_bytes_spec (P : byte -> bool) :
  for_all_bytes P = true -> forall b, P b = true.
Proof.
  unfold for_all_bytes. rewrite forallb_forall. intros H b. apply H, in_all_bytes.
Qed.

Lemma group_ok_all (a b : byte) : group_ok a b = true.
Proof.
  revert b. apply for_all_bytes_spec. revert a. apply for_all_bytes_spec.
  vm_compute. reflexivity.
Qed.

(** ** The tables *)

Lemma table_b2a_base64_ascii (n : N) : Binascii.table_b2a_base64 n < 128.
Proof.
  unfold Binascii.table_b2a_base64.
  destruct (N.ltb_spec n 26); [lia|].
  destruct (N.ltb_spec n 52); [lia|].
  destruct (N.ltb_spec n 62); [lia|].
  destruct (n =? 62); lia.
Qed.

Lemma below_64_cases (P : N -> bool) :
  forallb P (List.map N.of_nat (seq 0 64)) = true ->
  forall n, n < 64 -> P n = true.
Proof.
  rewrite forallb_forall. intros H n Hn. apply H.
  apply in_map_iff. exists (N.to_nat n). split.
  - apply N2Nat.id.
  - apply in_seq. lia.
Qed.

Lemma table_a2b_b2a (n : N) :
  n < 64 -> Binascii.table_a2b_base64 (Binascii.table_b2a_base64 n) = n.
Proof.
  intros Hn. apply N.eqb_eq. revert n Hn.
  apply (below_64_cases
           (fun n => Binascii.table_a2b_base64 (Binascii.table_b2a_base64 n) =? n)).
  vm_compute. reflexivity.
Qed.

Lemma table_b2a_not_pad (n : N) :
  n < 64 -> (Binascii.table_b2a_base64 n =? Binascii.BASE64_PAD) = false.
Proof.
  intros Hn. apply negb_true_iff. revert n Hn.
  apply (below_64_cases
           (fun n => negb (Binascii.table_b2a_base64 n =? Binascii.BASE64_PAD))).
  vm_compute. reflexivity.
Qed.

Lemma to_N_b2a_char (n : N) :
  Byte.to_N (Binascii.b2a_char n) = Binascii.table_b2a_base64 n.
Proof.
  unfold Binascii.b2a_char. apply to_N_uchar.
  pose proof (table_b2a_base64_ascii n). lia.
Qed.

(** ** One step of the decoding loop *)

(** An alphabet character advances the quad. *)
Lemma a2b_loop_data (n : N) (rest : bytes) (quad_pos leftchar pads : N) (bin_data : bytes) :
  n < 64 ->
  Binascii.a2b_loop (Binascii.b2a_char n :: rest) quad_pos leftchar pads bin_data
  = match quad_pos with
    | 0 => Binascii.a2b_loop rest 1 n 0 bin_data
    | 1 => Binascii.a2b_loop rest 2 (N.land n 15) 0
             (bin_data ++ [uchar (N.lor (N.shiftl leftchar 2) (N.shiftr n 4))])
    | 2 => Binascii.a2b_loop rest 3 (N.land n 3) 0
             (bin_data ++ [uchar (N.lor (N.shiftl leftchar 4) (N.shiftr n 2))])
    | 3 => Binascii.a2b_loop rest 0 0 0
             (bin_data ++ [uchar (N.lor (N.shiftl leftchar 6) n)])
    | _ => Binascii.a2b_loop rest quad_pos leftchar 0 bin_data
    end.
Proof.
  intros Hn. cbn [Binascii.a2b_loop].
  rewrite to_N_b2a_char, table_b2a_not_pad, table_a2b_b2a by assumption.
  destruct (N.leb_spec 64 n); [lia | reflexivity].
Qed.

(** The pad character ends the loop once the quad is complete. *)
Lemma a2b_loop_pad (rest : bytes) (quad_pos leftchar pads : N) (bin_data : bytes) :
  Binascii.a2b_loop (uchar Binascii.BASE64_PAD :: rest) quad_pos leftchar pads bin_data
  = if 2 <=? quad_pos then
      if 4 <=? quad_pos + (pads + 1) then inr bin_data
      else Binascii.a2b_loop rest quad_pos leftchar (pads + 1) bin_data
    else Binascii.a2b_loop rest quad_pos leftchar pads bin_data.
Proof. reflexivity. Qed.

(** Any other character is skipped. *)
Lemma a2b_loop_skip (ch : byte) (rest : bytes) (quad_pos leftchar pads : N) (bin_data : bytes) :
  Binascii.significant ch = false ->
  Binascii.a2b_loop (ch :: rest) quad_pos leftchar pads bin_data
  = Binascii.a2b_loop rest quad_pos leftchar pads bin_data.
Proof.
  unfold Binascii.significant, Binascii.is_alphabet, Binascii.is_pad.
  intros H. apply orb_false_iff in H as [Ha Hp].
  cbn [Binascii.a2b_loop]. rewrite Hp in *. cbn in Ha.
  destruct (N.ltb_spec (Binascii.table_a2b_base64 (Byte.to_N ch)) 64) as [|Hge];
    [discriminate|].
  apply N.leb_le in Hge. now rewrite Hge.
Qed.

(** ** Induction on a list three elements at a time *)

Lemma list_ind3 {A} (P : list A -> Prop) :
  P [] ->
  (forall x, P [x]) ->
  (forall x y, P [x; y]) ->
  (forall x y z l, P l -> P (x :: y :: z :: l)) ->
  forall l, P l.
Proof.
  intros H0 H1 H2 H3.
  assert (forall l, P l /\ (forall x, P (x :: l)) /\ (forall x y, P (x :: y :: l))) as H.
  { induction l as [|a l (IH0 & IH1 & IH2)].
    - auto.
    - repeat split; auto. }
  intros l. apply H.
Qed.

(** ** The arithmetic of one group *)

Section GroupFacts.

Variables a b : byte.
Let A := Byte.to_N a.
Let B := Byte.to_N b.

Lemma group_facts :
  (N.shiftr A 2 < 64 /\ sextet2 A B < 64 /\ sextet3 A B < 64 /\ N.land B 63 < 64
   /\ N.shiftl (N.land A 3) 4 < 64 /\ N.shiftl (N.land A 15) 2 < 64)
  /\ uchar (N.lor (N.shiftl (N.shiftr A 2) 2) (N.shiftr (sextet2 A B) 4)) = a
  /\ uchar (N.lor (N.shiftl (N.shiftr A 2) 2) (N.shiftr (N.shiftl (N.land A 3) 4) 4)) = a
  /\ N.land (sextet2 A B) 15 = N.shiftr B 4
  /\ uchar (N.lor (N.shiftl (N.shiftr A 4) 4) (N.shiftr (sextet3 A B) 2)) = a
  /\ uchar (N.lor (N.shiftl (N.shiftr A 4) 4) (N.shiftr (N.shiftl (N.land A 15) 2) 2)) = a
  /\ uchar (N.lor (N.shiftl (N.land (sextet3 A B) 3) 6) (N.land B 63)) = b.
Proof.
  pose proof (group_ok_all a b) as H. unfold group_ok in H. fold A B in H.
  repeat (apply andb_prop in H; destruct H as [H ?]).
  repeat match goal with
         | H : (_ <? _) = true |- _ => apply N.ltb_lt in H
         | H : (_ =? _) = true |- _ => apply N.eqb_eq in H
         | H : Byte.eqb _ _ = true |- _ => apply Byte.byte_dec_bl in H
         end.
  repeat split; assumption.
Qed.

End GroupFacts.

(** ** Decoding what the encoder produced *)

Lemma b2a_base64_3 (x y z : byte) (rest : bytes) :
  Binascii.b2a_base64 (x :: y :: z :: rest)
  = Binascii.b2a_char (N.shiftr (Byte.to_N x) 2)
    :: Binascii.b2a_char (sextet2 (Byte.to_N x) (Byte.to_N y))
    :: Binascii.b2a_char (sextet3 (Byte.to_N y) (Byte.to_N z))
    :: Binascii.b2a_char (N.land (Byte.to_N z) 63)
    :: Binascii.b2a_base64 rest.
Proof. reflexivity. Qed.

Lemma b2a_base64_2 (x y : byte) :
  Binascii.b2a_base64 [x; y]
  = [ Binascii.b2a_char (N.shiftr (Byte.to_N x) 2);
      Binascii.b2a_char (sextet2 (Byte.to_N x) (Byte.to_N y));
      Binascii.b2a_char (N.shiftl (N.land (Byte.to_N y) 15) 2);
      uchar Binascii.BASE64_PAD ].
Proof. reflexivity. Qed.

Lemma b2a_base64_1 (x : byte) :
  Binascii.b2a_base64 [x]
  = [ Binascii.b2a_char (N.shiftr (Byte.to_N x) 2);
      Binascii.b2a_char (N.shiftl (N.land (Byte.to_N x) 3) 4);
      uchar Binascii.BASE64_PAD; uchar Binascii.BASE64_PAD ].
Proof. reflexivity. Qed.

(** Started at the beginning of a quad, the loop appends exactly the encoded
    bytes to what it has already produced. *)
Lemma a2b_loop_b2a_base64 (b : bytes) :
  forall (leftchar pads : N) (bin_data : bytes),
    Binascii.a2b_loop (Binascii.b2a_base64 b) 0 leftchar pads bin_data
    = inr (bin_data ++ b).
Proof.
  induction b as [| x | x y | x y z rest IH] using list_ind3; intros leftchar pads bin_data.
  - cbn. now rewrite app_nil_r.
  - destruct (group_facts x x) as ((H1 & _ & _ & _ & H5 & _) & _ & E1 & _).
    rewrite b2a_base64_1.
    rewrite a2b_loop_data by assumption.
    rewrite a2b_loop_data by assumption.
    rewrite E1. rewrite !a2b_loop_pad. reflexivity.
  - destruct (group_facts x y) as ((H1 & H2 & _) & E1 & _ & E2 & _).
    destruct (group_facts y y) as ((_ & _ & _ & _ & _ & H6) & _ & _ & _ & _ & E3 & _).
    rewrite b2a_base64_2.
    rewrite a2b_loop_data by assumption.
    rewrite a2b_loop_data by assumption.
    rewrite a2b_loop_data by assumption.
    rewrite E1, E2, E3. rewrite a2b_loop_pad. cbn.
    now rewrite <- app_assoc.
  - destruct (group_facts x y) as ((H1 & H2 & _) & E1 & _ & E2 & _).
    destruct (group_facts y z) as ((_ & _ & H3 & H4 & _) & _ & _ & _ & E3 & _ & E4).
    rewrite b2a_base64_3.
    rewrite a2b_loop_data by assumption.
    rewrite a2b_loop_data by assumption.
    rewrite a2b_loop_data by assumption.
    rewrite a2b_loop_data by assumption.
    rewrite E1, E2, E3, E4. rewrite IH.
    now rewrite <- !app_assoc.
Qed.

Lemma b2a_base64_ascii (b : bytes) :
  forallb (fun c => c <? 128) (codes (Binascii.b2a_base64 b)) = true.
Proof.
  assert (Hc : forall n, (Byte.to_N (Binascii.b2a_char n) <? 128) = true).
  { intros n. rewrite to_N_b2a_char. apply N.ltb_lt, table_b2a_base64_ascii. }
  induction b as [| x | x y | x y z rest IH] using list_ind3.
  - reflexivity.
  - rewrite b2a_base64_1. cbn [codes List.map forallb]. now rewrite !Hc.
  - rewrite b2a_base64_2. cbn [codes List.map forallb]. now rewrite !Hc.
  - rewrite b2a_base64_3. cbn [codes List.map forallb]. rewrite !Hc. exact IH.
Qed.

Lemma map_uchar_codes (b : bytes) : List.map uchar (codes b) = b.
Proof.
  unfold codes. rewrite List.map_map. rewrite <- (List.map_id b) at 2.
  apply List.map_ext. intros c. apply uchar_to_N.
Qed.

(** Decoding the encoding, on bytes and on text. *)
Lemma b64_round_trip (b : bytes) :
  Binascii.a2b_base64 (Binascii.b2a_base64 b) = inr b
  /\ Py.b64decode (codes (Binascii.b2a_base64 b)) = inr b.
Proof.
  assert (H : Binascii.a2b_base64 (Binascii.b2a_base64 b) = inr b).
  { unfold Binascii.a2b_base64. apply (a2b_loop_b2a_base64 b 0 0 []). }
  split; [exact H|].
  unfold Py.b64decode, Py.encode_ascii.
  rewrite b2a_base64_ascii, map_uchar_codes. now rewrite H.
Qed.

(** C1: for every byte sequence [b] (the empty one included), base64-decoding
    the standard base64 encoding of [b] yields exactly [b]: both
    [binascii.a2b_base64] on the encoded bytes and [base64.b64decode] on the
    encoded text, as the decoder script calls it, return [b]. *)
Theorem b64decode_b64encode (b : bytes) :
  Binascii.a2b_base64 (Py.b64encode b) = inr b
  /\ Py.b64decode (codes (Py.b64encode b)) = inr b.
Proof. unfold Py.b64encode. apply b64_round_trip. Qed.

(** ** Runs of [base64_decoder.py] *)

Section DecoderRuns.

Variable locale_decode : bytes -> option pystr.

(** What a run of the script does, case by case. *)
Lemma base64_decoder_run (w : Py.world) :
  base64_decoder locale_decode w
  = match Py.fs w !! input_path with
    | Some (Py.Regular raw) =>
        let w1 := Py.World (Py.fs w) (Py.trace w ++ [Py.OpenedRead input_path]) in
        match locale_decode raw with
        | None => (inl (Py.Raise Py.UnicodeDecodeError), w1)
        | Some text =>
            match Py.b64decode (Py.strip text) with
            | inl e => (inl (Py.Raise e), w1)
            | inr decoded_bytes =>
                match Py.fs w !! output_path with
                | Some Py.Unopenable => (inl (Py.Raise (Py.OSError output_path)), w1)
                | _ =>
                    (inr tt,
                     Py.World (<[output_path := Py.Regular decoded_bytes]> (Py.fs w))
                       (Py.trace w ++ [Py.OpenedRead input_path;
                                       Py.OpenedWrite output_path;
                                       Py.Written output_path decoded_bytes]))
                end
            end
        end
    | _ => (inl (Py.Raise (Py.OSError input_path)), w)
    end.
Proof.
  unfold base64_decoder, read_text, mbind, M_bind, Py.bind, Py.open_read.
  destruct (Py.fs w !! input_path) as [[raw|]|]; try reflexivity.
  destruct (locale_decode raw) as [text|]; [|reflexivity].
  cbn [Py.ret Py.lift]. 
  destruct (Py.b64decode (Py.strip text)) as [e|decoded]; [reflexivity|].
  cbn [Py.ret Py.lift Py.open_write Py.file_write Py.fs Py.trace].
  assert (Hw : Py.file_write output_path decoded
                 (Py.World (<[output_path := Py.Regular []]> (Py.fs w))
                    ((Py.trace w ++ [Py.OpenedRead input_path])
                       ++ [Py.OpenedWrite output_path]))
               = (inr tt,
                  Py.World (<[output_path := Py.Regular decoded]> (Py.fs w))
                    (Py.trace w ++ [Py.OpenedRead input_path; Py.OpenedWrite output_path;
                                    Py.Written output_path decoded]))).
  { unfold Py.file_write. cbn [Py.fs Py.trace].
    rewrite lookup_insert_eq, insert_insert_eq. cbn [app].
    now rewrite <- !app_assoc. }
  unfold Py.open_write. cbn [Py.fs Py.trace].
  destruct (Py.fs w !! output_path) as [[old|]|]; [exact Hw | reflexivity | exact Hw].
Qed.

End DecoderRuns.

(** ** Characters the loop skips, and where the loop can stop *)

Lemma a2b_loop_filter (s : bytes) :
  forall (quad_pos leftchar pads : N) (bin_data : bytes),
    Binascii.a2b_loop s quad_pos leftchar pads bin_data
    = Binascii.a2b_loop (List.filter Binascii.significant s) quad_pos leftchar pads bin_data.
Proof.
  induction s as [|ch s IH]; intros quad_pos leftchar pads bin_data; [reflexivity|].
  cbn [List.filter]. destruct (Binascii.significant ch) eqn:E.
  - cbn [Binascii.a2b_loop]. rewrite <- !IH. reflexivity.
  - rewrite a2b_loop_skip by exact E. apply IH.
Qed.

Lemma a2b_loop_alphabet (ch : byte) (quad_pos leftchar pads : N) (bin_data : bytes) :
  Binascii.is_alphabet ch = true ->
  quad_pos < 4 ->
  exists leftchar' bin_data',
    forall rest,
      Binascii.a2b_loop (ch :: rest) quad_pos leftchar pads bin_data
      = Binascii.a2b_loop rest ((quad_pos + 1) mod 4) leftchar' 0 bin_data'.
Proof.
  unfold Binascii.is_alphabet. intros H Hq.
  apply andb_prop in H as [Hp Ht]. apply negb_true_iff in Hp. apply N.ltb_lt in Ht.
  assert (Hge : (64 <=? Binascii.table_a2b_base64 (Byte.to_N ch)) = false)
    by (apply N.leb_gt; exact Ht).
  assert (Hc : quad_pos = 0 \/ quad_pos = 1 \/ quad_pos = 2 \/ quad_pos = 3) by lia.
  destruct Hc as [-> | [-> | [-> | ->]]];
    eexists _, _; intros rest; cbn [Binascii.a2b_loop]; rewrite Hp, Hge; reflexivity.
Qed.

Lemma a2b_loop_alphabet_run (data : bytes) :
  forall (quad_pos leftchar : N) (bin_data : bytes),
    forallb Binascii.is_alphabet data = true ->
    quad_pos < 4 ->
    exists leftchar' bin_data',
      forall rest,
        Binascii.a2b_loop (data ++ rest) quad_pos leftchar 0 bin_data
        = Binascii.a2b_loop rest ((quad_pos + N.of_nat (length data)) mod 4)
            leftchar' 0 bin_data'.
Proof.
  induction data as [|ch data IH]; intros quad_pos leftchar bin_data Hall Hq.
  - exists leftchar, bin_data. intros rest. cbn [app length N.of_nat].
    rewrite N.add_0_r, N.mod_small by exact Hq. reflexivity.
  - cbn [forallb] in Hall. apply andb_prop in Hall as [Hch Hall].
    destruct (a2b_loop_alphabet ch quad_pos leftchar 0 bin_data Hch Hq) as (l1 & b1 & E1).
    assert (Hq' : (quad_pos + 1) mod 4 < 4) by (apply N.mod_lt; lia).
    destruct (IH ((quad_pos + 1) mod 4) l1 b1 Hall Hq') as (l2 & b2 & E2).
    exists l2, b2. intros rest. cbn [app]. rewrite E1, E2.
    f_equal. cbn [length]. rewrite Nat2N.inj_succ.
    rewrite N.Div0.add_mod_idemp_l. f_equal. lia.
Qed.

Lemma a2b_loop_pads_ignored (k : nat) (quad_pos leftchar pads : N) (bin_data : bytes) :
  quad_pos < 2 ->
  Binascii.a2b_loop (repeat (uchar Binascii.BASE64_PAD) k) quad_pos leftchar pads bin_data
  = Binascii.a2b_loop [] quad_pos leftchar pads bin_data.
Proof.
  intros Hq. induction k as [|k IH]; [reflexivity|].
  cbn [repeat]. rewrite a2b_loop_pad.
  destruct (N.leb_spec 2 quad_pos); [lia | exact IH].
Qed.

(** The outcome of the loop on [k] pad characters, by the position in the
    quad. *)
Lemma a2b_loop_pads (k : nat) (quad_pos leftchar : N) (bin_data : bytes) :
  quad_pos < 4 ->
  Binascii.a2b_loop (repeat (uchar Binascii.BASE64_PAD) k) quad_pos leftchar 0 bin_data
  = if quad_pos =? 0 then inr bin_data
    else if quad_pos =? 1
         then inl (Binascii.Invalid_length (N.of_nat (length bin_data) / 3 * 4 + 1))
         else if quad_pos =? 2
              then if (k <? 2)%nat then inl Binascii.Incorrect_padding else inr bin_data
              else if (k =? 0)%nat then inl Binascii.Incorrect_padding else inr bin_data.
Proof.
  intros Hq.
  assert (Hc : quad_pos = 0 \/ quad_pos = 1 \/ quad_pos = 2 \/ quad_pos = 3) by lia.
  destruct Hc as [-> | [-> | [-> | ->]]].
  - rewrite a2b_loop_pads_ignored by lia. reflexivity.
  - rewrite a2b_loop_pads_ignored by lia. reflexivity.
  - destruct k as [|[|k]]; reflexivity.
  - destruct k as [|k]; reflexivity.
Qed.

(** Alphabet characters followed by pad characters: the loop fails exactly
    when the group is left unfinished. *)
Lemma a2b_base64_truncated (s data : bytes) (k : nat) :
  List.filter Binascii.significant s = data ++ repeat (uchar Binascii.BASE64_PAD) k ->
  forallb Binascii.is_alphabet data = true ->
  if truncated (length data) k
  then exists e, Binascii.a2b_base64 s = inl e
  else exists decoded, Binascii.a2b_base64 s = inr decoded.
Proof.
  intros Hs Hdata. unfold Binascii.a2b_base64.
  rewrite a2b_loop_filter, Hs.
  destruct (a2b_loop_alphabet_run data 0 0 [] Hdata) as (l & out & E); [lia|].
  rewrite E, N.add_0_l.
  assert (Hq : N.of_nat (length data) mod 4 < 4) by (apply N.mod_lt; lia).
  rewrite a2b_loop_pads by exact Hq.
  unfold truncated.
  assert (Hm : N.of_nat (length data) mod 4 = N.of_nat (length data mod 4)).
  { change 4 with (N.of_nat 4). now rewrite <- Nat2N.inj_mod. }
  rewrite Hm.
  pose proof (Nat.mod_upper_bound (length data) 4 ltac:(lia)) as Hb.
  destruct (length data mod 4)%nat as [|[|[|[|n]]]]; try lia; cbn.
  - eauto.
  - eauto.
  - destruct k as [|[|k]]; cbn; eauto.
  - destruct k as [|k]; cbn; eauto.
Qed.

(** ** More on [strip] and on what [b64decode] reads *)

Lemma lstrip_spaces (ws s : pystr) :
  forallb Py.isspace ws = true -> Py.lstrip (ws ++ s) = Py.lstrip s.
Proof.
  induction ws as [|c ws IH]; intros H; [reflexivity|].
  cbn [forallb] in H. apply andb_prop in H as [Hc H].
  cbn [app Py.lstrip]. rewrite Hc. now apply IH.
Qed.

Lemma lstrip_all_spaces (ws : pystr) :
  forallb Py.isspace ws = true -> Py.lstrip ws = [].
Proof.
  intros H. rewrite <- (app_nil_r ws). now rewrite lstrip_spaces.
Qed.

Lemma rstrip_spaces (s ws : pystr) :
  forallb Py.isspace ws = true -> Py.rstrip (s ++ ws) = Py.rstrip s.
Proof.
  intros H. unfold Py.rstrip. rewrite rev_app_distr.
  rewrite lstrip_spaces; [reflexivity|].
  rewrite forallb_forall in *. intros c Hc. apply H. now apply in_rev.
Qed.

Lemma lstrip_split (s : pystr) :
  exists ws, s = ws ++ Py.lstrip s /\ forallb Py.isspace ws = true.
Proof.
  induction s as [|c s (ws & E & H)].
  - now exists [].
  - cbn [Py.lstrip]. destruct (Py.isspace c) eqn:Hc.
    + exists (c :: ws). cbn [app forallb]. rewrite Hc, H. now rewrite <- E.
    + now exists [].
Qed.

(** [strip] cuts whitespace off both ends and only there. *)
Lemma strip_split (s : pystr) :
  exists ws1 ws2,
    s = ws1 ++ Py.strip s ++ ws2
    /\ forallb Py.isspace ws1 = true /\ forallb Py.isspace ws2 = true.
Proof.
  destruct (lstrip_split s) as (ws1 & E1 & H1).
  destruct (lstrip_split (rev (Py.lstrip s))) as (ws2 & E2 & H2).
  exists ws1, (rev ws2). repeat split; [|exact H1|].
  - unfold Py.strip, Py.rstrip.
    rewrite <- rev_app_distr, <- E2, rev_involutive. exact E1.
  - rewrite forallb_forall in *. intros c Hc. apply H2. now apply in_rev.
Qed.

Lemma strip_spaces (ws1 s ws2 : pystr) :
  forallb Py.isspace ws1 = true ->
  forallb Py.isspace ws2 = true ->
  Py.strip (ws1 ++ s ++ ws2) = Py.strip s.
Proof.
  intros H1 H2. unfold Py.strip. rewrite lstrip_spaces by exact H1.
  induction s as [|c s IH].
  - cbn [app]. now rewrite lstrip_all_spaces.
  - cbn [app Py.lstrip]. destruct (Py.isspace c); [exact IH|].
    change (c :: s ++ ws2) with ((c :: s) ++ ws2). now apply rstrip_spaces.
Qed.



(** ** The decoder script: the specified properties *)



(** C9: when the base64 decoding of the input fails, the script stops with
    that error before the output file is opened: the file system is left as
    it was and the only event is the opening of the input file. *)
Theorem decode_failure_leaves_output_untouched
        (locale_decode : bytes -> option pystr) (w : Py.world)
        (raw : bytes) (text : pystr) (e : Py.exn) :
  Py.fs w !! input_path = Some (Py.Regular raw) ->
  locale_decode raw = Some text ->
  Py.b64decode (Py.strip text) = inl e ->
  base64_decoder locale_decode w
  = (inl (Py.Raise e), Py.World (Py.fs w) (Py.trace w ++ [Py.OpenedRead input_path])).
Proof.
  intros Hin Htext Hdec.
  rewrite base64_decoder_run, Hin. cbn zeta. now rewrite Htext, Hdec.
Qed.

Lemma decode_failure_leaves_output_untouched_witness :
  base64_decoder latin1_decode (input_only "RzEgWDAgWTA")
  = (inl (Py.Raise (Py.binascii_Error Binascii.Incorrect_padding)),
     Py.World (Py.fs (input_only "RzEgWDAgWTA"))
       (Py.trace (input_only "RzEgWDAgWTA") ++ [Py.OpenedRead input_path])).
Proof.
  apply (decode_failure_leaves_output_untouched latin1_decode (input_only "RzEgWDAgWTA")
           (List.map uchar (lit "RzEgWDAgWTA") ++ [x0a])
           (lit "RzEgWDAgWTA" ++ [10])).
  - vm_compute. reflexivity.
  - vm_compute. reflexivity.
  - vm_compute. reflexivity.
Defined.

(** C8: characters outside the base64 alphabet do not make the decoder fail.
    [a2b_base64] gives the same result on a string and on the string without
    its characters that are neither in the alphabet nor the pad character;
    the only errors it has are the two about length and padding; and there is
    an input text with a character outside the alphabet on which the script
    runs to the end and writes the decoded bytes. *)
Theorem non_alphabet_characters_are_discarded :
  (forall data : bytes,
      Binascii.a2b_base64 data
      = Binascii.a2b_base64 (List.filter Binascii.significant data))
  /\ (forall (data : bytes) (e : Binascii.Error),
         Binascii.a2b_base64 data = inl e ->
         e = Binascii.Incorrect_padding \/ exists n, e = Binascii.Invalid_length n)
  /\ exists text : string,
      (exists c, In c (lit text) /\ alphabet_code c = false /\ c <> Binascii.BASE64_PAD)
      /\ Py.b64decode (Py.strip (lit text ++ [10])) = inr gcode_line
      /\ base64_decoder latin1_decode (input_only text)
         = (inr tt,
            Py.World (<[output_path := Py.Regular gcode_line]> (Py.fs (input_only text)))
              [Py.OpenedRead input_path; Py.OpenedWrite output_path;
               Py.Written output_path gcode_line]).
Proof.
  split; [|split].
  - intros data. unfold Binascii.a2b_base64. apply a2b_loop_filter.
  - intros data [n|] _; eauto.
  - exists "Rz!EgWDAgWTAK"%string. split; [|split].
    + exists 33. repeat split; [cbn; tauto | discriminate].
    + vm_compute. reflexivity.
    + vm_compute. reflexivity.
Qed.

(** C3, as the specification states it, fails: this input is not validly
    encoded (it holds [!]), yet the decoder does not fail and writes an
    output file. *)
Lemma invalid_input_is_decoded :
  valid_base64 (Py.strip (lit "Rz!EgWDAgWTAK" ++ [10])) = false
  /\ base64_decoder latin1_decode (input_only "Rz!EgWDAgWTAK")
     = (inr tt,
        Py.World (<[output_path := Py.Regular gcode_line]>
                    (Py.fs (input_only "Rz!EgWDAgWTAK")))
          [Py.OpenedRead input_path; Py.OpenedWrite output_path;
           Py.Written output_path gcode_line]).
Proof. split; vm_compute; reflexivity. Qed.

(** C3, amended: for an ASCII input text whose significant characters (the
    others are discarded) are alphabet characters followed by [k] pad
    characters, the decoder fails with a [binascii.Error], leaving the file
    system as it was, exactly when these characters stop inside a group of
    four (one character too many, or a group of two or three characters
    without enough padding); otherwise the text is decoded. *)
Theorem decoder_fails_on_wrong_length_or_padding
        (locale_decode : bytes -> option pystr) (w : Py.world)
        (raw : bytes) (text : pystr) (chars data : bytes) (k : nat) :
  Py.fs w !! input_path = Some (Py.Regular raw) ->
  locale_decode raw = Some text ->
  Py.encode_ascii (Py.strip text) = Some chars ->
  List.filter Binascii.significant chars = data ++ repeat (uchar Binascii.BASE64_PAD) k ->
  forallb Binascii.is_alphabet data = true ->
  if truncated (length data) k
  then exists e,
      base64_decoder locale_decode w
      = (inl (Py.Raise (Py.binascii_Error e)),
         Py.World (Py.fs w) (Py.trace w ++ [Py.OpenedRead input_path]))
  else exists decoded, Py.b64decode (Py.strip text) = inr decoded.
Proof.
  intros Hin Htext Hascii Hsig Hdata.
  pose proof (a2b_base64_truncated chars data k Hsig Hdata) as H.
  destruct (truncated (length data) k).
  - destruct H as [e He]. exists e.
    rewrite base64_decoder_run, Hin. cbn zeta. rewrite Htext.
    unfold Py.b64decode. now rewrite Hascii, He.
  - destruct H as [decoded Hd]. exists decoded.
    unfold Py.b64decode. now rewrite Hascii, Hd.
Qed.

Lemma decoder_fails_on_wrong_length_or_padding_witness :
  exists e,
    base64_decoder latin1_decode (input_only "Q!UJDRA=")
    = (inl (Py.Raise (Py.binascii_Error e)),
       Py.World (Py.fs (input_only "Q!UJDRA="))
         (Py.trace (input_only "Q!UJDRA=") ++ [Py.OpenedRead input_path])).
Proof.
  apply (decoder_fails_on_wrong_length_or_padding latin1_decode (input_only "Q!UJDRA=")
           (List.map uchar (lit "Q!UJDRA=") ++ [x0a])
           (lit "Q!UJDRA=" ++ [10])
           (List.map uchar (lit "Q!UJDRA="))
           (List.map uchar (lit "QUJDRA")) 1).
  - vm_compute. reflexivity.
  - vm_compute. reflexivity.
  - vm_compute. reflexivity.
  - vm_compute. reflexivity.
  - vm_compute. reflexivity.
Defined.

(** ** Runs of [client.py] *)

Lemma config_is_json_text :
  Py.replace 39 34 (str_dict config)
  = json_object_text
      [ (lit "printer_preset", lit "Bambu Lab A1");
        (lit "filament_preset", lit "Bambu PLA Basic @BBL A1");
        (lit "process_preset", lit "0.20mm Standard @BBL A1") ].
Proof. reflexivity. Qed.

(** *** Decimal numerals *)

Lemma unlit_lit (s : string) : unlit (lit s) = s.
Proof.
  unfold unlit, lit. rewrite List.map_map.
  rewrite (List.map_ext _ (fun a => a)) by (intros a; apply ascii_N_embedding).
  rewrite List.map_id. apply string_of_list_ascii_of_string.
Qed.

(** [str(n)] is the decimal numeral of [n]. *)
Lemma decimal_value_str_of_N (n : N) : decimal_value (Py.str_of_N n) = Some n.
Proof.
  unfold decimal_value, Py.str_of_N. rewrite unlit_lit, NilEmpty.usu.
  cbn [option_map]. now rewrite DecimalN.Unsigned.of_to.
Qed.



(** *** Running a script one step at a time *)

Lemma run_ret {A B} (a : A) (k : A -> Py.M B) (w : Py.world) :
  (Py.ret a ≫= k) w = k a w.
Proof. reflexivity. Qed.

Lemma run_lift {A B} (a : A) (k : A -> Py.M B) (w : Py.world) :
  (Py.lift (inr a) ≫= k) w = k a w.
Proof. reflexivity. Qed.

Lemma run_lift_error {A B} (e : Py.exn) (k : A -> Py.M B) (w : Py.world) :
  (Py.lift (inl e) ≫= k) w = (inl (Py.Raise e), w).
Proof. reflexivity. Qed.

Lemma run_print {B} (stdout_accepts : list Py.piece -> bool) (line : list Py.piece)
      (k : unit -> Py.M B) (w : Py.world) :
  Py.printable stdout_accepts line = true ->
  (Py.print stdout_accepts line ≫= k) w
  = k tt (Py.World (Py.fs w) (Py.trace w ++ [Py.Printed line])).
Proof.
  intros H. unfold mbind, M_bind, Py.bind, Py.print. now rewrite H.
Qed.

Lemma run_print_error {B} (stdout_accepts : list Py.piece -> bool) (line : list Py.piece)
      (k : unit -> Py.M B) (w : Py.world) :
  Py.printable stdout_accepts line = false ->
  (Py.print stdout_accepts line ≫= k) w = (inl (Py.Raise Py.UnicodeEncodeError), w).
Proof.
  intros H. unfold mbind, M_bind, Py.bind, Py.print. now rewrite H.
Qed.

Lemma run_last_print (stdout_accepts : list Py.piece -> bool) (line : list Py.piece)
      (w : Py.world) :
  Py.print stdout_accepts line w
  = if Py.printable stdout_accepts line
    then (inr tt, Py.World (Py.fs w) (Py.trace w ++ [Py.Printed line]))
    else (inl (Py.Raise Py.UnicodeEncodeError), w).
Proof. unfold Py.print. now destruct (Py.printable stdout_accepts line). Qed.



(** Lines of ASCII literals and formatted numbers are always printed. *)
Lemma printable_ascii (stdout_accepts : list Py.piece -> bool) (line : list Py.piece) :
  forallb Py.ascii_piece line = true -> Py.printable stdout_accepts line = true.
Proof. intros H. unfold Py.printable. now rewrite H. Qed.

Section ClientRuns.

Variable stdout_accepts : list Py.piece -> bool.
Variable requests_post : Py.request -> Py.exn + response.

(** [slice_model] up to the response, case by case. *)
Lemma slice_model_run (model_path output_path server_url : pystr) (w : Py.world) :
  slice_model stdout_accepts requests_post model_path output_path server_url w
  = if Py.printable stdout_accepts (loading_line model_path) then
      let w0 := Py.World (Py.fs w)
                  (Py.trace w ++ [Py.Printed (loading_line model_path)]) in
      match Py.fs w !! model_path with
      | Some (Py.Regular f) =>
          if Py.printable stdout_accepts (sending_line server_url) then
            let w1 := Py.World (Py.fs w)
                        (Py.trace w ++ request_events model_path server_url f) in
            match requests_post (slice_request model_path server_url f) with
            | inl e => (inl (Py.Raise e), w1)
            | inr response => on_response stdout_accepts output_path response w1
            end
          else
            (inl (Py.Raise Py.UnicodeEncodeError),
             Py.World (Py.fs w)
               (Py.trace w ++ [Py.Printed (loading_line model_path);
                               Py.OpenedRead model_path]))
      | Some Py.Unopenable => (inl (Py.Raise (Py.OSError model_path)), w0)
      | None =>
          (inl (Py.Raise (if Py.has_nul model_path then Py.ValueError
                          else Py.OSError model_path)), w0)
      end
    else (inl (Py.Raise Py.UnicodeEncodeError), w).
Proof.
  unfold slice_model.
  change [Py.Text ([128193] ++ lit " Loading model: " ++ model_path)]
    with (loading_line model_path).
  change [Py.Text ([128640] ++ lit " Sending to " ++ server_url ++ lit "/slice...")]
    with (sending_line server_url).
  destruct (Py.printable stdout_accepts (loading_line model_path)) eqn:Hl;
    [|now rewrite run_print_error].
  rewrite run_print by exact Hl. cbn zeta.
  unfold mbind at 1, M_bind at 1, Py.bind at 1, Py.open_read. cbn [Py.fs Py.trace].
  destruct (Py.fs w !! model_path) as [[f|]|]; try reflexivity.
  destruct (Py.printable stdout_accepts (sending_line server_url)) eqn:Hs.
  - rewrite run_print by exact Hs. cbn [Py.fs Py.trace].
    unfold post, mbind, M_bind, Py.bind, Py.emit. cbn [Py.fs Py.trace].
    rewrite config_is_json_text.
    unfold slice_request, request_events, loading_line, sending_line.
    rewrite <- !app_assoc. cbn [app].
    destruct (requests_post _) as [e|response]; reflexivity.
  - rewrite run_print_error by exact Hs. cbn [Py.fs Py.trace].
    now rewrite <- app_assoc.
Qed.

(** The same once the two progress lines are known to be printed and the
    model file to be readable. *)
Lemma slice_model_request (model_path output_path server_url : pystr) (f : bytes)
      (w : Py.world) :
  Py.printable stdout_accepts (loading_line model_path) = true ->
  Py.printable stdout_accepts (sending_line server_url) = true ->
  Py.fs w !! model_path = Some (Py.Regular f) ->
  slice_model stdout_accepts requests_post model_path output_path server_url w
  = match requests_post (slice_request model_path server_url f) with
    | inl e =>
        (inl (Py.Raise e),
         Py.World (Py.fs w) (Py.trace w ++ request_events model_path server_url f))
    | inr response =>
        on_response stdout_accepts output_path response
          (Py.World (Py.fs w) (Py.trace w ++ request_events model_path server_url f))
    end.
Proof.
  intros Hl Hs Hf. rewrite slice_model_run, Hl, Hf, Hs. reflexivity.
Qed.

End ClientRuns.

(** *** After the response *)

Lemma on_response_not_200 (stdout_accepts : list Py.piece -> bool) (output_path : pystr)
      (r : response) (w : Py.world) :
  status_code r <> 200 ->
  on_response stdout_accepts output_path r w
  = if Py.printable stdout_accepts (status_line (status_code r)) then
      let w1 := Py.World (Py.fs w)
                  (Py.trace w ++ [Py.Printed (status_line (status_code r))]) in
      match json r with
      | None => (inl (Py.Raise Py.JSONDecodeError), w1)
      | Some body =>
          if Py.printable stdout_accepts [Py.Str body] then
            (inl (Py.SystemExit 1),
             Py.World (Py.fs w)
               (Py.trace w ++ [Py.Printed (status_line (status_code r));
                               Py.Printed [Py.Str body]]))
          else (inl (Py.Raise Py.UnicodeEncodeError), w1)
      end
    else (inl (Py.Raise Py.UnicodeEncodeError), w).
Proof.
  intros Hs. unfold on_response.
  apply N.eqb_neq in Hs. rewrite Hs. cbn [negb].
  change [Py.Text ([10060] ++ lit " Error: " ++ Py.str_of_N (status_code r))]
    with (status_line (status_code r)).
  destruct (Py.printable stdout_accepts (status_line (status_code r))) eqn:Hp;
    [|now rewrite run_print_error].
  rewrite run_print by exact Hp. cbn zeta.
  unfold response_json. destruct (json r) as [body|]; [|reflexivity].
  rewrite run_ret.
  destruct (Py.printable stdout_accepts [Py.Str body]) eqn:Hb.
  - rewrite run_print by exact Hb. unfold Py.sys_exit. cbn [Py.fs Py.trace].
    now rewrite <- app_assoc.
  - now rewrite run_print_error.
Qed.

(** *** Steps that send no request *)

Lemma posts_app (t1 t2 : list Py.event) : posts (t1 ++ t2) = posts t1 ++ posts t2.
Proof.
  induction t1 as [|ev t1 IH]; [reflexivity|].
  destruct ev; cbn [app posts]; now rewrite ?IH.
Qed.

Lemma sends_nothing_ret {A} (a : A) : sends_nothing (Py.ret a).
Proof. intros w. reflexivity. Qed.

Lemma sends_nothing_raise {A} (e : Py.exn) : sends_nothing (@Py.raise A e).
Proof. intros w. reflexivity. Qed.

Lemma sends_nothing_sys_exit {A} (code : N) : sends_nothing (@Py.sys_exit A code).
Proof. intros w. reflexivity. Qed.

Lemma sends_nothing_lift {A} (r : Py.exn + A) : sends_nothing (Py.lift r).
Proof. destruct r; intros w; reflexivity. Qed.

Lemma sends_nothing_print (stdout_accepts : list Py.piece -> bool) (line : list Py.piece) :
  sends_nothing (Py.print stdout_accepts line).
Proof.
  intros w. rewrite run_last_print.
  destruct (Py.printable stdout_accepts line); [|reflexivity].
  cbn [snd Py.trace]. rewrite posts_app. cbn. now rewrite app_nil_r.
Qed.

Lemma sends_nothing_open_write (path : pystr) : sends_nothing (Py.open_write path).
Proof.
  intros w. unfold Py.open_write.
  destruct (Py.fs w !! path) as [[c|]|]; [| |destruct (Py.has_nul path)];
    cbn [snd Py.trace]; rewrite ?posts_app; cbn; now rewrite ?app_nil_r.
Qed.

Lemma sends_nothing_file_write (path : pystr) (b : bytes) :
  sends_nothing (Py.file_write path b).
Proof.
  intros w. unfold Py.file_write.
  destruct (Py.fs w !! path) as [[c|]|]; cbn [snd Py.trace];
    rewrite ?posts_app; cbn; now rewrite ?app_nil_r.
Qed.

Lemma sends_nothing_response_json (r : response) : sends_nothing (response_json r).
Proof. unfold response_json. destruct (json r); intros w; reflexivity. Qed.

Lemma sends_nothing_bind {A B} (m : Py.M A) (k : A -> Py.M B) :
  sends_nothing m -> (forall a, sends_nothing (k a)) -> sends_nothing (m ≫= k).
Proof.
  intros Hm Hk w. unfold mbind, M_bind, Py.bind.
  specialize (Hm w). destruct (m w) as [[stop|a] w1]; cbn [snd] in *.
  - exact Hm.
  - rewrite Hk. exact Hm.
Qed.

Create HintDb quiet.
#[local] Hint Resolve sends_nothing_ret sends_nothing_raise sends_nothing_sys_exit
  sends_nothing_lift sends_nothing_print sends_nothing_open_write
  sends_nothing_file_write sends_nothing_response_json : quiet.

Lemma on_response_sends_nothing (stdout_accepts : list Py.piece -> bool)
      (output_path : pystr) (r : response) :
  sends_nothing (on_response stdout_accepts output_path r).
Proof.
  unfold on_response.
  destruct (negb (status_code r =? 200));
    repeat (apply sends_nothing_bind; [auto with quiet | intros]); auto with quiet.
Qed.

(** ** The client: the specified properties *)

(** C5: with fewer than two command-line arguments ([sys.argv] shorter than
    3), the client prints the usage message and exits with status 1; it sends
    no request and opens no file: the three lines printed are the only
    events, and the file system is as before.  This holds whatever the
    standard output can encode, the three lines being ASCII. *)
Theorem main_usage (stdout_accepts : list Py.piece -> bool)
        (requests_post : Py.request -> Py.exn + response)
        (argv : list pystr) (w : Py.world) :
  (length argv < 3)%nat ->
  main stdout_accepts requests_post argv w
  = (inl (Py.SystemExit 1),
     Py.World (Py.fs w)
       (Py.trace w
          ++ [ Py.Printed [Py.Text (lit "Usage: python3 client.py <model.stl> <output.gcode>")];
               Py.Printed [Py.Text ([10] ++ lit "Example:")];
               Py.Printed [Py.Text (lit "  python3 client.py cube.stl output.gcode")] ]))
  /\ Py.exit_status (fst (main stdout_accepts requests_post argv w)) = 1
  /\ posts (Py.trace (snd (main stdout_accepts requests_post argv w))) = posts (Py.trace w).
Proof.
  intros Hlen. apply Nat.ltb_lt in Hlen.
  assert (E : main stdout_accepts requests_post argv w
              = (inl (Py.SystemExit 1),
                 Py.World (Py.fs w)
                   (Py.trace w
                      ++ [ Py.Printed [Py.Text (lit "Usage: python3 client.py <model.stl> <output.gcode>")];
                           Py.Printed [Py.Text ([10] ++ lit "Example:")];
                           Py.Printed [Py.Text (lit "  python3 client.py cube.stl output.gcode")] ]))).
  { unfold main. rewrite Hlen.
    rewrite run_print by (apply printable_ascii; reflexivity).
    rewrite run_print by (apply printable_ascii; reflexivity).
    rewrite run_print by (apply printable_ascii; reflexivity).
    unfold Py.sys_exit. cbn [Py.fs Py.trace]. now rewrite <- !app_assoc. }
  rewrite E. cbn [fst snd Py.trace Py.exit_status]. repeat split.
  rewrite posts_app. cbn. now rewrite app_nil_r.
Qed.

Lemma main_usage_witness :
  main ascii_stdout service_ok [lit "client.py"; lit "cube.stl"] cube_only
  = (inl (Py.SystemExit 1),
     Py.World (Py.fs cube_only)
       (Py.trace cube_only
          ++ [ Py.Printed [Py.Text (lit "Usage: python3 client.py <model.stl> <output.gcode>")];
               Py.Printed [Py.Text ([10] ++ lit "Example:")];
               Py.Printed [Py.Text (lit "  python3 client.py cube.stl output.gcode")] ]))
  /\ Py.exit_status (fst (main ascii_stdout service_ok [lit "client.py"; lit "cube.stl"]
                            cube_only)) = 1
  /\ posts (Py.trace (snd (main ascii_stdout service_ok [lit "client.py"; lit "cube.stl"]
                             cube_only)))
     = posts (Py.trace cube_only).
Proof.
  apply (main_usage ascii_stdout service_ok [lit "client.py"; lit "cube.stl"] cube_only).
  cbn. lia.
Defined.




(** C4, as the specification states it, fails, even on a standard output in
    UTF-8.  When the service answers 500 with a body that is not JSON, the
    client prints the status line and then stops on the uncaught
    [JSONDecodeError] of [response.json()]; when it answers 500 with a JSON
    string that holds a lone surrogate, [print] stops on
    [UnicodeEncodeError].  In both runs the body is not printed and
    [sys.exit(1)] is not reached. *)
Lemma error_body_not_printed :
  status_code (Response 500 None) <> 200
  /\ slice_model utf8_stdout service_error_html (lit "cube.stl") (lit "out.gcode")
       (lit "http://localhost:8080") cube_only
     = (inl (Py.Raise Py.JSONDecodeError),
        Py.World (Py.fs cube_only)
          (request_events (lit "cube.stl") (lit "http://localhost:8080")
             [x73; x6f; x6c; x69; x64]
           ++ [Py.Printed [Py.Text ([10060] ++ lit " Error: 500")]]))
  /\ slice_model utf8_stdout service_error_surrogate (lit "cube.stl") (lit "out.gcode")
       (lit "http://localhost:8080") cube_only
     = (inl (Py.Raise Py.UnicodeEncodeError),
        Py.World (Py.fs cube_only)
          (request_events (lit "cube.stl") (lit "http://localhost:8080")
             [x73; x6f; x6c; x69; x64]
           ++ [Py.Printed [Py.Text ([10060] ++ lit " Error: 500")]])).
Proof. split; [discriminate | split; vm_compute; reflexivity]. Qed.

(** C4, amended: for every response received with a status other than 200,
    the process ends with exit status 1 and the file system is left as it
    was (no output file is written); when the standard output can encode the
    status line, that line, which holds the status code in decimal, is
    printed; when moreover the body of the response is JSON and the standard
    output can encode its text, the client prints the parsed body and ends
    by [sys.exit(1)]. *)
Theorem non_200_is_reported (stdout_accepts : list Py.piece -> bool)
        (requests_post : Py.request -> Py.exn + response)
        (model_path output_path server_url : pystr) (f : bytes) (w : Py.world)
        (r : response) :
  Py.printable stdout_accepts (loading_line model_path) = true ->
  Py.printable stdout_accepts (sending_line server_url) = true ->
  Py.fs w !! model_path = Some (Py.Regular f) ->
  requests_post (slice_request model_path server_url f) = inr r ->
  status_code r <> 200 ->
  let run := slice_model stdout_accepts requests_post model_path output_path server_url w in
  let digits := Py.str_of_N (status_code r) in
  let status := Py.Printed [Py.Text ([10060] ++ lit " Error: " ++ digits)] in
  Py.exit_status (fst run) = 1
  /\ Py.fs (snd run) = Py.fs w
  /\ decimal_value digits = Some (status_code r)
  /\ (Py.printable stdout_accepts (status_line (status_code r)) = true ->
      exists more,
        Py.trace (snd run)
        = Py.trace w ++ request_events model_path server_url f ++ status :: more
        /\ forall ev, In ev more ->
                      exists body, json r = Some body /\ ev = Py.Printed [Py.Str body])
  /\ (forall body,
         json r = Some body ->
         Py.printable stdout_accepts (status_line (status_code r)) = true ->
         Py.printable stdout_accepts [Py.Str body] = true ->
         run = (inl (Py.SystemExit 1),
                Py.World (Py.fs w)
                  (Py.trace w ++ request_events model_path server_url f
                     ++ [status; Py.Printed [Py.Str body]]))).
Proof.
  intros Hl Hsend Hf Hpost Hs run digits status. subst run digits status.
  rewrite (slice_model_request _ _ _ _ _ f) by assumption. rewrite Hpost.
  rewrite (on_response_not_200 _ _ _ _ Hs). cbn zeta.
  change [Py.Text ([10060] ++ lit " Error: " ++ Py.str_of_N (status_code r))]
    with (status_line (status_code r)).
  split; [|split; [|split; [apply decimal_value_str_of_N|]]].
  - destruct (Py.printable stdout_accepts (status_line (status_code r))); [|reflexivity].
    destruct (json r) as [body|]; [|reflexivity].
    destruct (Py.printable stdout_accepts [Py.Str body]); reflexivity.
  - destruct (Py.printable stdout_accepts (status_line (status_code r))); [|reflexivity].
    destruct (json r) as [body|]; [|reflexivity].
    destruct (Py.printable stdout_accepts [Py.Str body]); reflexivity.
  - split.
    + intros Hp. rewrite Hp.
      destruct (json r) as [body|].
      * destruct (Py.printable stdout_accepts [Py.Str body]); cbn [snd Py.trace].
        -- exists [Py.Printed [Py.Str body]]. split; [now rewrite <- app_assoc|].
           intros ev [<-|[]]. now exists body.
        -- exists []. split; [now rewrite <- app_assoc|]. intros ev [].
      * cbn [snd Py.trace]. exists []. split; [now rewrite <- app_assoc|]. intros ev [].
    + intros body Hj Hp Hb. rewrite Hp, Hj, Hb. cbn [Py.fs Py.trace].
      now rewrite <- app_assoc.
Qed.

Lemma non_200_is_reported_witness :
  let run := slice_model utf8_stdout service_error_json (lit "cube.stl") (lit "out.gcode")
               (lit "http://localhost:8080") cube_only in
  let r := Response 500 (Some (Py.PDict [(lit "error", Py.PStr (lit "slicing failed"))])) in
  let digits := lit "500" in
  let status := Py.Printed [Py.Text ([10060] ++ lit " Error: " ++ digits)] in
  Py.exit_status (fst run) = 1
  /\ Py.fs (snd run) = Py.fs cube_only
  /\ decimal_value digits = Some 500
  /\ (Py.printable utf8_stdout (status_line 500) = true ->
      exists more,
        Py.trace (snd run)
        = Py.trace cube_only
          ++ request_events (lit "cube.stl") (lit "http://localhost:8080")
               [x73; x6f; x6c; x69; x64]
          ++ status :: more
        /\ forall ev, In ev more ->
                      exists body, json r = Some body /\ ev = Py.Printed [Py.Str body])
  /\ (forall body,
         json r = Some body ->
         Py.printable utf8_stdout (status_line 500) = true ->
         Py.printable utf8_stdout [Py.Str body] = true ->
         run = (inl (Py.SystemExit 1),
                Py.World (Py.fs cube_only)
                  (Py.trace cube_only
                     ++ request_events (lit "cube.stl") (lit "http://localhost:8080")
                          [x73; x6f; x6c; x69; x64]
                     ++ [status; Py.Printed [Py.Str body]]))).
Proof.
  apply (non_200_is_reported utf8_stdout service_error_json (lit "cube.stl") (lit "out.gcode")
           (lit "http://localhost:8080") [x73; x6f; x6c; x69; x64] cube_only
           (Response 500 (Some (Py.PDict [(lit "error", Py.PStr (lit "slicing failed"))])))).
  - vm_compute. reflexivity.
  - vm_compute. reflexivity.
  - vm_compute. reflexivity.
  - reflexivity.
  - cbn. lia.
Defined.

(** C10: for every response whose status is not 200 and whose body is not
    JSON, the client does not end by [sys.exit(1)]: once the two progress
    lines and the status line are printed, [response.json()] raises
    [JSONDecodeError], which nothing catches; the body is not printed. *)
Theorem non_json_error_body_raises (stdout_accepts : list Py.piece -> bool)
        (requests_post : Py.request -> Py.exn + response)
        (model_path output_path server_url : pystr) (f : bytes) (w : Py.world)
        (r : response) :
  Py.fs w !! model_path = Some (Py.Regular f) ->
  requests_post (slice_request model_path server_url f) = inr r ->
  status_code r <> 200 ->
  json r = None ->
  (Py.printable stdout_accepts (loading_line model_path) = true ->
   Py.printable stdout_accepts (sending_line server_url) = true ->
   Py.printable stdout_accepts (status_line (status_code r)) = true ->
   slice_model stdout_accepts requests_post model_path output_path server_url w
   = (inl (Py.Raise Py.JSONDecodeError),
      Py.World (Py.fs w)
        (Py.trace w ++ request_events model_path server_url f
           ++ [Py.Printed [Py.Text ([10060] ++ lit " Error: "
                                      ++ Py.str_of_N (status_code r))]])))
  /\ fst (slice_model stdout_accepts requests_post model_path output_path server_url w)
     <> inl (Py.SystemExit 1).
Proof.
  intros Hf Hpost Hs Hj. split.
  - intros Hl Hsend Hp.
    rewrite (slice_model_request _ _ _ _ _ f) by assumption. rewrite Hpost.
    rewrite (on_response_not_200 _ _ _ _ Hs), Hp, Hj. cbn zeta. cbn [Py.fs Py.trace].
    unfold status_line. now rewrite <- app_assoc.
  - rewrite slice_model_run, Hf.
    destruct (Py.printable stdout_accepts (loading_line model_path)); [|discriminate].
    cbn zeta.
    destruct (Py.printable stdout_accepts (sending_line server_url)); [|discriminate].
    rewrite Hpost, (on_response_not_200 _ _ _ _ Hs), Hj.
    destruct (Py.printable stdout_accepts (status_line (status_code r))); discriminate.
Qed.

Lemma non_json_error_body_raises_witness :
  slice_model utf8_stdout service_error_html (lit "cube.stl") (lit "out.gcode")
    (lit "http://localhost:8080") cube_only
  = (inl (Py.Raise Py.JSONDecodeError),
     Py.World (Py.fs cube_only)
       (Py.trace cube_only
          ++ request_events (lit "cube.stl") (lit "http://localhost:8080")
               [x73; x6f; x6c; x69; x64]
          ++ [Py.Printed [Py.Text ([10060] ++ lit " Error: " ++ lit "500")]]))
  /\ fst (slice_model utf8_stdout service_error_html (lit "cube.stl") (lit "out.gcode")
            (lit "http://localhost:8080") cube_only)
     <> inl (Py.SystemExit 1).
Proof.
  destruct (non_json_error_body_raises utf8_stdout service_error_html (lit "cube.stl")
              (lit "out.gcode") (lit "http://localhost:8080") [x73; x6f; x6c; x69; x64]
              cube_only (Response 500 None)) as [Hrun Hexit].
  - vm_compute. reflexivity.
  - reflexivity.
  - cbn. lia.
  - reflexivity.
  - split; [|exact Hexit]. apply Hrun; vm_compute; reflexivity.
Defined.

(** *** A response with status 200 *)

Lemma format_2f_number (v : Py.pyobj) :
  is_number v = true -> format_2f v = inr (Py.Fixed2 v).
Proof.
  destruct v; cbn; try discriminate; [|reflexivity].
  now intros ->.
Qed.

Section Report.

Variable stdout_accepts : list Py.piece -> bool.
Variables (output_path : pystr) (r : response) (w : Py.world).
Variables (result stats filament weight cost : Py.pyobj) (job_id print_time : pystr).

Hypothesis Hstatus : status_code r = 200.
Hypothesis Hjson : json r = Some result.
Hypothesis Hstats : getitem result (lit "stats") = inr stats.
Hypothesis Hjob : getitem result (lit "job_id") = inr (Py.PStr job_id).
Hypothesis Htime : getitem stats (lit "estimated_print_time") = inr (Py.PStr print_time).
Hypothesis Hfilament : getitem stats (lit "total_used_filament") = inr filament.
Hypothesis Hfilament_number : is_number filament = true.
Hypothesis Hweight : getitem stats (lit "total_weight") = inr weight.
Hypothesis Hweight_number : is_number weight = true.
Hypothesis Hcost : getitem stats (lit "total_cost") = inr cost.
Hypothesis Hcost_number : is_number cost = true.

(** The run as far as the job id, when that line cannot be printed. *)
Lemma on_response_job_id_unprintable :
  Py.printable stdout_accepts completed_line = true ->
  Py.printable stdout_accepts [Py.Text (lit "   Job ID: "); Py.Text job_id] = false ->
  on_response stdout_accepts output_path r w
  = (inl (Py.Raise Py.UnicodeEncodeError),
     Py.World (Py.fs w) (Py.trace w ++ [Py.Printed completed_line])).
Proof.
  intros Hc Hj. unfold on_response. rewrite Hstatus, N.eqb_refl. cbn [negb].
  unfold response_json. rewrite Hjson, run_ret.
  rewrite Hstats, run_lift. rewrite run_print by exact Hc.
  rewrite Hjob, run_lift. cbn [format_str].
  now rewrite run_print_error by exact Hj.
Qed.

(** The run as far as the end of the report. *)
Lemma on_response_report :
  Py.printable stdout_accepts completed_line = true ->
  Py.printable stdout_accepts [Py.Text (lit "   Job ID: "); Py.Text job_id] = true ->
  Py.printable stdout_accepts [Py.Text (lit "   Print Time: "); Py.Text print_time] = true ->
  on_response stdout_accepts output_path r w
  = save_gcode stdout_accepts output_path result
      (Py.World (Py.fs w)
         (Py.trace w ++ report_events job_id print_time filament weight cost)).
Proof.
  intros Hc Hj Ht. unfold on_response. rewrite Hstatus, N.eqb_refl. cbn [negb].
  unfold response_json. rewrite Hjson, run_ret.
  rewrite Hstats, run_lift. rewrite run_print by exact Hc.
  rewrite Hjob, run_lift. cbn [format_str]. rewrite run_print by exact Hj.
  rewrite Htime, run_lift. cbn [format_str]. rewrite run_print by exact Ht.
  rewrite Hfilament, run_lift, (format_2f_number _ Hfilament_number), run_lift.
  rewrite Hweight, run_lift, (format_2f_number _ Hweight_number), run_lift.
  rewrite run_print by (apply printable_ascii; reflexivity).
  rewrite Hcost, run_lift, (format_2f_number _ Hcost_number), run_lift.
  rewrite run_print by (apply printable_ascii; reflexivity).
  cbn [Py.fs Py.trace]. unfold report_events. rewrite <- !app_assoc. reflexivity.
Qed.

End Report.






(** * Further properties *)

(** ** More on the decoding loop *)

Lemma length_mod3_step {A} (x y z : A) (rest : list A) :
  (length (x :: y :: z :: rest) mod 3 = length rest mod 3)%nat.
Proof.
  cbn [length].
  replace (S (S (S (length rest)))) with (length rest + 1 * 3)%nat by lia.
  apply Nat.Div0.mod_add.
Qed.

(** After the encoding of [b], the loop either has stopped at the padding or
    stands at the beginning of a quad. *)
Lemma a2b_loop_b2a_base64_then (b tail : bytes) :
  forall (leftchar pads : N) (bin_data : bytes),
  exists leftchar' pads',
    Binascii.a2b_loop (Binascii.b2a_base64 b ++ tail) 0 leftchar pads bin_data
    = if (length b mod 3 =? 0)%nat
      then Binascii.a2b_loop tail 0 leftchar' pads' (bin_data ++ b)
      else inr (bin_data ++ b).
Proof.
  induction b as [| x | x y | x y z rest IH] using list_ind3; intros leftchar pads bin_data.
  - exists leftchar, pads. cbn. now rewrite app_nil_r.
  - exists 0, 0.
    destruct (group_facts x x) as ((H1 & _ & _ & _ & H5 & _) & _ & E1 & _).
    rewrite b2a_base64_1. cbn [app length Nat.modulo Nat.divmod fst snd Nat.eqb Nat.sub].
    rewrite a2b_loop_data by assumption.
    rewrite a2b_loop_data by assumption.
    rewrite E1. rewrite !a2b_loop_pad. reflexivity.
  - exists 0, 0.
    destruct (group_facts x y) as ((H1 & H2 & _) & E1 & _ & E2 & _).
    destruct (group_facts y y) as ((_ & _ & _ & _ & _ & H6) & _ & _ & _ & _ & E3 & _).
    rewrite b2a_base64_2. cbn [app length Nat.modulo Nat.divmod fst snd Nat.eqb Nat.sub].
    rewrite a2b_loop_data by assumption.
    rewrite a2b_loop_data by assumption.
    rewrite a2b_loop_data by assumption.
    rewrite E1, E2, E3. rewrite a2b_loop_pad. cbn.
    now rewrite <- app_assoc.
  - destruct (group_facts x y) as ((H1 & H2 & _) & E1 & _ & E2 & _).
    destruct (group_facts y z) as ((_ & _ & H3 & H4 & _) & _ & _ & _ & E3 & _ & E4).
    destruct (IH 0 0 (bin_data ++ [x; y; z])) as (l' & p' & E).
    exists l', p'.
    rewrite b2a_base64_3, length_mod3_step. cbn [app].
    rewrite a2b_loop_data by assumption.
    rewrite a2b_loop_data by assumption.
    rewrite a2b_loop_data by assumption.
    rewrite a2b_loop_data by assumption.
    rewrite E1, E2, E3, E4.
    rewrite <- !app_assoc. cbn [app].
    rewrite E. rewrite <- !app_assoc. reflexivity.
Qed.

(** X1: whatever follows a padded encoding is ignored: when the length of
    [b] is not a multiple of 3, decoding the encoding of [b] followed by any
    bytes gives [b]. *)
Theorem a2b_base64_stops_at_padding (b tail : bytes) :
  (length b mod 3 <> 0)%nat ->
  Binascii.a2b_base64 (Binascii.b2a_base64 b ++ tail) = inr b.
Proof.
  intros Hlen. unfold Binascii.a2b_base64.
  destruct (a2b_loop_b2a_base64_then b tail 0 0 []) as (l & p & E).
  rewrite E. apply Nat.eqb_neq in Hlen. now rewrite Hlen.
Qed.

Lemma a2b_base64_stops_at_padding_witness :
  Binascii.a2b_base64 (Binascii.b2a_base64 [x58] ++ Binascii.b2a_base64 gcode_line)
  = inr [x58].
Proof.
  apply (a2b_base64_stops_at_padding [x58] (Binascii.b2a_base64 gcode_line)).
  cbn. lia.
Defined.

(** X2: two encodings put one after the other decode to the two byte
    sequences put one after the other when the first has no padding, that
    is, when its length is a multiple of 3. *)
Theorem a2b_base64_concat (b1 b2 : bytes) :
  (length b1 mod 3 = 0)%nat ->
  Binascii.a2b_base64 (Binascii.b2a_base64 b1 ++ Binascii.b2a_base64 b2)
  = inr (b1 ++ b2).
Proof.
  intros Hlen. unfold Binascii.a2b_base64.
  destruct (a2b_loop_b2a_base64_then b1 (Binascii.b2a_base64 b2) 0 0 []) as (l & p & E).
  rewrite E, Hlen. cbn [Nat.eqb].
  now rewrite a2b_loop_b2a_base64.
Qed.

Lemma a2b_base64_concat_witness :
  Binascii.a2b_base64 (Binascii.b2a_base64 gcode_line ++ Binascii.b2a_base64 [x58])
  = inr (gcode_line ++ [x58]).
Proof.
  apply (a2b_base64_concat gcode_line [x58]). reflexivity.
Defined.

(** The loop never writes more than three bytes for four alphabet
    characters read. *)
Lemma a2b_loop_bound (s : bytes) :
  forall (quad_pos leftchar pads : N) (bin_data decoded : bytes),
    quad_pos < 4 ->
    Binascii.a2b_loop s quad_pos leftchar pads bin_data = inr decoded ->
    (4 * length decoded
     <= 4 * length bin_data + quad_credit quad_pos
        + 3 * length (List.filter Binascii.is_alphabet s))%nat.
Proof.
  induction s as [|ch s IH]; intros quad_pos leftchar pads bin_data decoded Hq H.
  - cbn in H. destruct (quad_pos =? 0); [|destruct (quad_pos =? 1); discriminate].
    injection H as <-. lia.
  - cbn [Binascii.a2b_loop] in H. cbn [List.filter].
    assert (Ha : Binascii.is_alphabet ch
                 = negb (Byte.to_N ch =? Binascii.BASE64_PAD)
                   && (Binascii.table_a2b_base64 (Byte.to_N ch) <? 64)) by reflexivity.
    destruct (Byte.to_N ch =? Binascii.BASE64_PAD) eqn:Hpad; cbn [negb andb] in Ha.
    + rewrite Ha. destruct (2 <=? quad_pos).
      * destruct (4 <=? quad_pos + (pads + 1)).
        -- injection H as <-. lia.
        -- apply IH in H; [exact H | exact Hq].
      * apply IH in H; [exact H | exact Hq].
    + destruct (N.leb_spec 64 (Binascii.table_a2b_base64 (Byte.to_N ch))) as [Hge|Hlt].
      * destruct (N.ltb_spec (Binascii.table_a2b_base64 (Byte.to_N ch)) 64); [lia|].
        rewrite Ha. apply IH in H; [exact H | exact Hq].
      * destruct (N.ltb_spec (Binascii.table_a2b_base64 (Byte.to_N ch)) 64); [|lia].
        rewrite Ha. cbn [length].
        assert (Hc : quad_pos = 0 \/ quad_pos = 1 \/ quad_pos = 2 \/ quad_pos = 3) by lia.
        destruct Hc as [-> | [-> | [-> | ->]]];
          apply IH in H; try lia;
          rewrite ?length_app in H; cbn [length quad_credit] in *; lia.
Qed.

(** X3: the decoded bytes are at most three quarters of the alphabet
    characters of the input, hence of the input. *)
Theorem a2b_base64_output_bound (data decoded : bytes) :
  Binascii.a2b_base64 data = inr decoded ->
  (4 * length decoded <= 3 * length (List.filter Binascii.is_alphabet data))%nat
  /\ (4 * length decoded <= 3 * length data)%nat.
Proof.
  intros H. unfold Binascii.a2b_base64 in H.
  apply a2b_loop_bound in H; [|lia]. cbn [length quad_credit] in H.
  pose proof (List.filter_length_le Binascii.is_alphabet data). lia.
Qed.

Lemma a2b_base64_output_bound_witness :
  (4 * length gcode_line
   <= 3 * length (List.filter Binascii.is_alphabet (Binascii.b2a_base64 gcode_line)))%nat
  /\ (4 * length gcode_line <= 3 * length (Binascii.b2a_base64 gcode_line))%nat.
Proof.
  apply (a2b_base64_output_bound (Binascii.b2a_base64 gcode_line) gcode_line).
  vm_compute. reflexivity.
Defined.

(** X4: whitespace around the payload, ASCII or not, does not change what
    the decoder decodes: [strip] gives the same text, hence [b64decode] the
    same result, with and without it. *)
Theorem surrounding_whitespace_is_ignored (ws1 text ws2 : pystr) :
  forallb Py.isspace ws1 = true ->
  forallb Py.isspace ws2 = true ->
  Py.strip (ws1 ++ text ++ ws2) = Py.strip text
  /\ Py.b64decode (Py.strip (ws1 ++ text ++ ws2)) = Py.b64decode (Py.strip text).
Proof.
  intros H1 H2. rewrite strip_spaces by assumption. split; reflexivity.
Qed.

Lemma surrounding_whitespace_is_ignored_witness :
  Py.strip ([32; 160] ++ lit "RzEgWDAgWTAK" ++ [13; 10; 12288]) = Py.strip (lit "RzEgWDAgWTAK")
  /\ Py.b64decode (Py.strip ([32; 160] ++ lit "RzEgWDAgWTAK" ++ [13; 10; 12288]))
     = Py.b64decode (Py.strip (lit "RzEgWDAgWTAK")).
Proof.
  apply (surrounding_whitespace_is_ignored [32; 160] (lit "RzEgWDAgWTAK") [13; 10; 12288]).
  - reflexivity.
  - reflexivity.
Defined.

Lemma below_cases (bound : nat) (P : N -> bool) :
  forallb P (List.map N.of_nat (seq 0 bound)) = true ->
  forall n, n < N.of_nat bound -> P n = true.
Proof.
  rewrite forallb_forall. intros H n Hn. apply H.
  apply in_map_iff. exists (N.to_nat n). split.
  - apply N2Nat.id.
  - apply in_seq. lia.
Qed.

(** ASCII whitespace is not in the alphabet and is not the pad. *)
Lemma ascii_space_not_significant (c : N) :
  c < 128 -> Py.isspace c = true -> Binascii.significant (uchar c) = false.
Proof.
  intros Hc Hs.
  assert (H : implb (Py.isspace c) (negb (Binascii.significant (uchar c))) = true).
  { revert c Hc Hs. intros c Hc _. revert c Hc.
    apply (below_cases 128
             (fun c => implb (Py.isspace c) (negb (Binascii.significant (uchar c))))).
    vm_compute. reflexivity. }
  rewrite Hs in H. cbn in H. now apply negb_true_iff.
Qed.

Lemma filter_significant_spaces (ws : pystr) :
  forallb (fun c => c <? 128) ws = true ->
  forallb Py.isspace ws = true ->
  List.filter Binascii.significant (List.map uchar ws) = [].
Proof.
  induction ws as [|c ws IH]; intros Ha Hs; [reflexivity|].
  cbn [forallb] in Ha, Hs.
  apply andb_prop in Ha as [Hc Ha]. apply andb_prop in Hs as [Hsc Hs].
  apply N.ltb_lt in Hc. cbn [List.map List.filter].
  rewrite (ascii_space_not_significant c Hc Hsc). now apply IH.
Qed.

(** X5: on ASCII text the call to [strip] changes nothing: [b64decode]
    skips whitespace by itself, so the stripped text and the text as read
    decode to the same result (bytes or error). *)
Theorem b64decode_strip_ascii (text : pystr) :
  forallb (fun c => c <? 128) text = true ->
  Py.b64decode (Py.strip text) = Py.b64decode text.
Proof.
  intros Hascii.
  destruct (strip_split text) as (ws1 & ws2 & E & H1 & H2).
  assert (Hall : forallb (fun c => c <? 128) ws1 = true
                 /\ forallb (fun c => c <? 128) (Py.strip text) = true
                 /\ forallb (fun c => c <? 128) ws2 = true).
  { rewrite E in Hascii. rewrite !forallb_app in Hascii.
    apply andb_prop in Hascii as [Ha Hb]. apply andb_prop in Hb as [Hb Hc]. auto. }
  destruct Hall as (Ha1 & Ham & Ha2).
  unfold Py.b64decode, Py.encode_ascii. rewrite Ham, Hascii.
  assert (Hf : Binascii.a2b_base64 (List.map uchar text)
               = Binascii.a2b_base64 (List.map uchar (Py.strip text))).
  { unfold Binascii.a2b_base64.
    rewrite (a2b_loop_filter (List.map uchar text)).
    rewrite (a2b_loop_filter (List.map uchar (Py.strip text))).
    rewrite E at 1. rewrite !List.map_app, !List.filter_app.
    rewrite (filter_significant_spaces ws1 Ha1 H1).
    rewrite (filter_significant_spaces ws2 Ha2 H2).
    now rewrite app_nil_r. }
  now rewrite Hf.
Qed.

Lemma b64decode_strip_ascii_witness :
  Py.b64decode (Py.strip ([32] ++ lit "RzEgWDAgWTAK" ++ [13; 10]))
  = Py.b64decode ([32] ++ lit "RzEgWDAgWTAK" ++ [13; 10]).
Proof.
  apply (b64decode_strip_ascii ([32] ++ lit "RzEgWDAgWTAK" ++ [13; 10])).
  reflexivity.
Defined.

(** ** More runs of [base64_decoder.py] *)

(** X6: when [base64_input.txt] does not exist or cannot be opened, the
    script stops on the [OSError] of the first [open]: nothing has been done,
    the file system and the trace are as before. *)
Theorem decoder_input_unreadable (locale_decode : bytes -> option pystr) (w : Py.world) :
  (forall raw, Py.fs w !! input_path <> Some (Py.Regular raw)) ->
  base64_decoder locale_decode w = (inl (Py.Raise (Py.OSError input_path)), w).
Proof.
  intros H. rewrite base64_decoder_run.
  destruct (Py.fs w !! input_path) as [[raw|]|] eqn:E; try reflexivity.
  now destruct (H raw).
Qed.

Lemma decoder_input_unreadable_witness :
  base64_decoder latin1_decode empty_dir
  = (inl (Py.Raise (Py.OSError input_path)), empty_dir).
Proof.
  apply (decoder_input_unreadable latin1_decode empty_dir).
  intros raw. vm_compute. discriminate.
Defined.

(** X7: when the text decodes but [decoded_file.gcode] cannot be opened for
    writing, the script stops on the [OSError] of the second [open], after
    the decoding; the file system is as before. *)
Theorem decoder_output_unopenable
        (locale_decode : bytes -> option pystr) (w : Py.world)
        (raw : bytes) (text : pystr) (decoded : bytes) :
  Py.fs w !! input_path = Some (Py.Regular raw) ->
  locale_decode raw = Some text ->
  Py.b64decode (Py.strip text) = inr decoded ->
  Py.fs w !! output_path = Some Py.Unopenable ->
  base64_decoder locale_decode w
  = (inl (Py.Raise (Py.OSError output_path)),
     Py.World (Py.fs w) (Py.trace w ++ [Py.OpenedRead input_path])).
Proof.
  intros Hin Htext Hdec Hout.
  rewrite base64_decoder_run, Hin. cbn zeta. now rewrite Htext, Hdec, Hout.
Qed.

Lemma decoder_output_unopenable_witness :
  base64_decoder latin1_decode (output_locked "RzEgWDAgWTAK")
  = (inl (Py.Raise (Py.OSError output_path)),
     Py.World (Py.fs (output_locked "RzEgWDAgWTAK"))
       (Py.trace (output_locked "RzEgWDAgWTAK") ++ [Py.OpenedRead input_path])).
Proof.
  apply (decoder_output_unopenable latin1_decode (output_locked "RzEgWDAgWTAK")
           (List.map uchar (lit "RzEgWDAgWTAK") ++ [x0a])
           (lit "RzEgWDAgWTAK" ++ [10]) gcode_line).
  - vm_compute. reflexivity.
  - vm_compute. reflexivity.
  - vm_compute. reflexivity.
  - vm_compute. reflexivity.
Defined.



(** X10: a character outside ASCII that is left in the text after [strip]
    makes [b64decode] raise [ValueError]; the script stops there and writes
    nothing. *)
Theorem decoder_non_ascii_raises
        (locale_decode : bytes -> option pystr) (w : Py.world)
        (raw : bytes) (text : pystr) (c : N) :
  Py.fs w !! input_path = Some (Py.Regular raw) ->
  locale_decode raw = Some text ->
  In c (Py.strip text) ->
  128 <= c ->
  base64_decoder locale_decode w
  = (inl (Py.Raise Py.ValueError),
     Py.World (Py.fs w) (Py.trace w ++ [Py.OpenedRead input_path])).
Proof.
  intros Hin Htext Hc Hge.
  assert (Hd : Py.b64decode (Py.strip text) = inl Py.ValueError).
  { unfold Py.b64decode, Py.encode_ascii.
    destruct (forallb (fun c => c <? 128) (Py.strip text)) eqn:E; [|reflexivity].
    rewrite forallb_forall in E. specialize (E c Hc). apply N.ltb_lt in E. lia. }
  rewrite base64_decoder_run, Hin. cbn zeta. now rewrite Htext, Hd.
Qed.

Lemma decoder_non_ascii_raises_witness :
  base64_decoder latin1_decode non_ascii_input
  = (inl (Py.Raise Py.ValueError),
     Py.World (Py.fs non_ascii_input)
       (Py.trace non_ascii_input ++ [Py.OpenedRead input_path])).
Proof.
  apply (decoder_non_ascii_raises latin1_decode non_ascii_input
           [x52; x7a; xe9; x45; x0a] [82; 122; 233; 69; 10] 233).
  - vm_compute. reflexivity.
  - vm_compute. reflexivity.
  - vm_compute. tauto.
  - cbn. lia.
Defined.

(** ** Which files a step can change *)

Lemma keeps_files_ret {A} (a : A) : keeps_files (Py.ret a).
Proof. intros w. reflexivity. Qed.

Lemma keeps_files_raise {A} (e : Py.exn) : keeps_files (@Py.raise A e).
Proof. intros w. reflexivity. Qed.

Lemma keeps_files_sys_exit {A} (code : N) : keeps_files (@Py.sys_exit A code).
Proof. intros w. reflexivity. Qed.

Lemma keeps_files_lift {A} (r : Py.exn + A) : keeps_files (Py.lift r).
Proof. destruct r; intros w; reflexivity. Qed.

Lemma keeps_files_print (stdout_accepts : list Py.piece -> bool) (line : list Py.piece) :
  keeps_files (Py.print stdout_accepts line).
Proof.
  intros w. rewrite run_last_print.
  now destruct (Py.printable stdout_accepts line).
Qed.

Lemma keeps_files_response_json (r : response) : keeps_files (response_json r).
Proof. unfold response_json. destruct (json r); intros w; reflexivity. Qed.

Create HintDb files.
#[local] Hint Resolve keeps_files_ret keeps_files_raise keeps_files_sys_exit
  keeps_files_lift keeps_files_print keeps_files_response_json : files.






(** ** More runs of [client.py] *)



(** X12: when [requests.post] raises (connection refused, timeout), the
    exception is not caught: once the two progress lines are printed, the run
    ends with it right after the request, and the file system is as before;
    the exit status is 1 in any case. *)
Theorem slice_model_transport_failure (stdout_accepts : list Py.piece -> bool)
        (requests_post : Py.request -> Py.exn + response)
        (model_path output_path server_url : pystr) (f : bytes) (w : Py.world)
        (e : Py.exn) :
  Py.fs w !! model_path = Some (Py.Regular f) ->
  requests_post (slice_request model_path server_url f) = inl e ->
  (Py.printable stdout_accepts (loading_line model_path) = true ->
   Py.printable stdout_accepts (sending_line server_url) = true ->
   slice_model stdout_accepts requests_post model_path output_path server_url w
   = (inl (Py.Raise e),
      Py.World (Py.fs w) (Py.trace w ++ request_events model_path server_url f)))
  /\ Py.exit_status (fst (slice_model stdout_accepts requests_post model_path output_path
                            server_url w))
     = 1.
Proof.
  intros Hf Hpost. split.
  - intros Hl Hs. rewrite (slice_model_request _ _ _ _ _ f) by assumption.
    now rewrite Hpost.
  - rewrite slice_model_run, Hf.
    destruct (Py.printable stdout_accepts (loading_line model_path)); [|reflexivity].
    cbn zeta.
    destruct (Py.printable stdout_accepts (sending_line server_url)); [|reflexivity].
    now rewrite Hpost.
Qed.

Lemma slice_model_transport_failure_witness :
  slice_model utf8_stdout service_down (lit "cube.stl") (lit "out.gcode")
    (lit "http://localhost:8080") cube_only
  = (inl (Py.Raise Py.RequestException),
     Py.World (Py.fs cube_only)
       (Py.trace cube_only
          ++ request_events (lit "cube.stl") (lit "http://localhost:8080")
               [x73; x6f; x6c; x69; x64]))
  /\ Py.exit_status (fst (slice_model utf8_stdout service_down (lit "cube.stl")
                            (lit "out.gcode") (lit "http://localhost:8080") cube_only))
     = 1.
Proof.
  destruct (slice_model_transport_failure utf8_stdout service_down (lit "cube.stl")
              (lit "out.gcode") (lit "http://localhost:8080") [x73; x6f; x6c; x69; x64]
              cube_only Py.RequestException) as [Hrun Hexit].
  - vm_compute. reflexivity.
  - reflexivity.
  - split; [|exact Hexit]. apply Hrun; vm_compute; reflexivity.
Defined.



(** X15: a response with status 200 whose body is not JSON makes
    [response.json()] raise: the run ends with the uncaught
    [JSONDecodeError] right after the request, nothing more is printed and
    nothing is written. *)
Theorem slice_model_200_not_json (stdout_accepts : list Py.piece -> bool)
        (requests_post : Py.request -> Py.exn + response)
        (model_path output_path server_url : pystr) (f : bytes) (w : Py.world)
        (r : response) :
  Py.printable stdout_accepts (loading_line model_path) = true ->
  Py.printable stdout_accepts (sending_line server_url) = true ->
  Py.fs w !! model_path = Some (Py.Regular f) ->
  requests_post (slice_request model_path server_url f) = inr r ->
  status_code r = 200 ->
  json r = None ->
  slice_model stdout_accepts requests_post model_path output_path server_url w
  = (inl (Py.Raise Py.JSONDecodeError),
     Py.World (Py.fs w) (Py.trace w ++ request_events model_path server_url f)).
Proof.
  intros Hl Hsend Hf Hpost Hs Hj.
  rewrite (slice_model_request _ _ _ _ _ f) by assumption. rewrite Hpost.
  unfold on_response. rewrite Hs, N.eqb_refl. cbn [negb].
  unfold response_json. rewrite Hj. reflexivity.
Qed.

Lemma slice_model_200_not_json_witness :
  slice_model utf8_stdout service_ok_html (lit "cube.stl") (lit "out.gcode")
    (lit "http://localhost:8080") cube_only
  = (inl (Py.Raise Py.JSONDecodeError),
     Py.World (Py.fs cube_only)
       (Py.trace cube_only
          ++ request_events (lit "cube.stl") (lit "http://localhost:8080")
               [x73; x6f; x6c; x69; x64])).
Proof.
  apply (slice_model_200_not_json utf8_stdout service_ok_html (lit "cube.stl")
           (lit "out.gcode") (lit "http://localhost:8080") [x73; x6f; x6c; x69; x64]
           cube_only (Response 200 None)).
  - vm_compute. reflexivity.
  - vm_compute. reflexivity.
  - vm_compute. reflexivity.
  - reflexivity.
  - reflexivity.
  - reflexivity.
Defined.

(** X16: [stats] is looked up before anything is reported: when the body of
    a 200 response has no [stats] (a JSON object without that key gives
    [KeyError], a body that is not an object [TypeError]), the run ends with
    that exception and the line [Slicing completed!] is not printed, even if
    [job_id] and [gcode] are there. *)
Theorem slice_model_missing_stats (stdout_accepts : list Py.piece -> bool)
        (requests_post : Py.request -> Py.exn + response)
        (model_path output_path server_url : pystr) (f : bytes) (w : Py.world)
        (r : response) (result : Py.pyobj) (e : Py.exn) :
  Py.printable stdout_accepts (loading_line model_path) = true ->
  Py.printable stdout_accepts (sending_line server_url) = true ->
  Py.fs w !! model_path = Some (Py.Regular f) ->
  requests_post (slice_request model_path server_url f) = inr r ->
  status_code r = 200 ->
  json r = Some result ->
  getitem result (lit "stats") = inl e ->
  slice_model stdout_accepts requests_post model_path output_path server_url w
  = (inl (Py.Raise e),
     Py.World (Py.fs w) (Py.trace w ++ request_events model_path server_url f))
  /\ (forall items, result = Py.PDict items -> e = Py.KeyError (lit "stats"))
  /\ ((forall items, result <> Py.PDict items) -> e = Py.TypeError).
Proof.
  intros Hl Hsend Hf Hpost Hs Hj Hstats. split; [|split].
  - rewrite (slice_model_request _ _ _ _ _ f) by assumption. rewrite Hpost.
    unfold on_response. rewrite Hs, N.eqb_refl. cbn [negb].
    unfold response_json. rewrite Hj, run_ret, Hstats. apply run_lift_error.
  - intros items ->. cbn [getitem] in Hstats.
    destruct (lookup_item (lit "stats") items); congruence.
  - intros Hnd. destruct result as [| | | | | |items]; cbn [getitem] in Hstats;
      [congruence .. |]. now destruct (Hnd items).
Qed.

Lemma slice_model_missing_stats_witness :
  slice_model utf8_stdout service_no_stats (lit "cube.stl") (lit "out.gcode")
    (lit "http://localhost:8080") cube_only
  = (inl (Py.Raise (Py.KeyError (lit "stats"))),
     Py.World (Py.fs cube_only)
       (Py.trace cube_only
          ++ request_events (lit "cube.stl") (lit "http://localhost:8080")
               [x73; x6f; x6c; x69; x64]))
  /\ (forall items,
         Py.PDict [(lit "job_id", Py.PStr (lit "abc"))] = Py.PDict items ->
         Py.KeyError (lit "stats") = Py.KeyError (lit "stats"))
  /\ ((forall items, Py.PDict [(lit "job_id", Py.PStr (lit "abc"))] <> Py.PDict items) ->
      Py.KeyError (lit "stats") = Py.TypeError).
Proof.
  apply (slice_model_missing_stats utf8_stdout service_no_stats (lit "cube.stl")
           (lit "out.gcode") (lit "http://localhost:8080") [x73; x6f; x6c; x69; x64]
           cube_only
           (Response 200 (Some (Py.PDict [(lit "job_id", Py.PStr (lit "abc"))])))
           (Py.PDict [(lit "job_id", Py.PStr (lit "abc"))])
           (Py.KeyError (lit "stats"))).
  - vm_compute. reflexivity.
  - vm_compute. reflexivity.
  - vm_compute. reflexivity.
  - reflexivity.
  - reflexivity.
  - reflexivity.
  - vm_compute. reflexivity.
Defined.

(** X17: the G-code is decoded only after the statistics have been printed:
    when the report can be printed (job id and print time being strings) and
    [gcode] is missing, is not a string or does not decode, the five report
    lines are printed, then the run ends with the exception; the output file
    is not opened. *)
Theorem slice_model_bad_gcode (stdout_accepts : list Py.piece -> bool)
        (requests_post : Py.request -> Py.exn + response)
        (model_path output_path server_url : pystr) (f : bytes) (w : Py.world)
        (r : response) (result stats filament weight cost : Py.pyobj)
        (job_id print_time : pystr) (e : Py.exn) :
  Py.printable stdout_accepts (loading_line model_path) = true ->
  Py.printable stdout_accepts (sending_line server_url) = true ->
  Py.printable stdout_accepts completed_line = true ->
  Py.printable stdout_accepts [Py.Text (lit "   Job ID: "); Py.Text job_id] = true ->
  Py.printable stdout_accepts [Py.Text (lit "   Print Time: "); Py.Text print_time] = true ->
  Py.fs w !! model_path = Some (Py.Regular f) ->
  requests_post (slice_request model_path server_url f) = inr r ->
  status_code r = 200 ->
  json r = Some result ->
  getitem result (lit "stats") = inr stats ->
  getitem result (lit "job_id") = inr (Py.PStr job_id) ->
  getitem stats (lit "estimated_print_time") = inr (Py.PStr print_time) ->
  getitem stats (lit "total_used_filament") = inr filament ->
  is_number filament = true ->
  getitem stats (lit "total_weight") = inr weight ->
  is_number weight = true ->
  getitem stats (lit "total_cost") = inr cost ->
  is_number cost = true ->
  match getitem result (lit "gcode") with
  | inl e' => e' = e
  | inr gcode => b64decode_obj gcode = inl e
  end ->
  slice_model stdout_accepts requests_post model_path output_path server_url w
  = (inl (Py.Raise e),
     Py.World (Py.fs w)
       (Py.trace w
          ++ request_events model_path server_url f
          ++ [ Py.Printed [Py.Text ([10; 9989] ++ lit " Slicing completed!")];
               Py.Printed [Py.Text (lit "   Job ID: "); Py.Text job_id];
               Py.Printed [Py.Text (lit "   Print Time: "); Py.Text print_time];
               Py.Printed [Py.Text (lit "   Filament: "); Py.Fixed2 filament;
                           Py.Text (lit " mm ("); Py.Fixed2 weight; Py.Text (lit " g)")];
               Py.Printed [Py.Text (lit "   Cost: $"); Py.Fixed2 cost] ])).
Proof.
  intros Hl Hsend Hc Hjl Htl Hf Hpost Hs Hj Hstats Hjob Htime Hfil Hfiln Hwei Hwein
         Hcost Hcostn Hgcode.
  rewrite (slice_model_request _ _ _ _ _ f) by assumption. rewrite Hpost.
  rewrite (on_response_report stdout_accepts output_path r _ result stats filament
             weight cost job_id print_time) by assumption.
  cbn [Py.fs Py.trace]. unfold save_gcode, report_events.
  destruct (getitem result (lit "gcode")) as [e'|gcode].
  - subst e'. rewrite run_lift_error. now rewrite <- !app_assoc.
  - rewrite run_lift, Hgcode, run_lift_error. now rewrite <- !app_assoc.
Qed.

Lemma slice_model_bad_gcode_witness :
  slice_model utf8_stdout service_bad_gcode (lit "cube.stl") (lit "out.gcode")
    (lit "http://localhost:8080") cube_only
  = (inl (Py.Raise (Py.binascii_Error (Binascii.Invalid_length 1))),
     Py.World (Py.fs cube_only)
       (Py.trace cube_only
          ++ request_events (lit "cube.stl") (lit "http://localhost:8080")
               [x73; x6f; x6c; x69; x64]
          ++ [ Py.Printed [Py.Text ([10; 9989] ++ lit " Slicing completed!")];
               Py.Printed [Py.Text (lit "   Job ID: "); Py.Text (lit "abc")];
               Py.Printed [Py.Text (lit "   Print Time: "); Py.Text (lit "1h")];
               Py.Printed [Py.Text (lit "   Filament: ");
                           Py.Fixed2 (Py.PFloat (S754_finite false 0x19200000000000 (-46)));
                           Py.Text (lit " mm (");
                           Py.Fixed2 (Py.PFloat (S754_finite false 0x14666666666666 (-49)));
                           Py.Text (lit " g)")];
               Py.Printed [Py.Text (lit "   Cost: $");
                           Py.Fixed2 (Py.PFloat (S754_finite false 0x13ae147ae147ae (-52)))] ])).
Proof.
  apply (slice_model_bad_gcode utf8_stdout service_bad_gcode (lit "cube.stl")
           (lit "out.gcode") (lit "http://localhost:8080") [x73; x6f; x6c; x69; x64]
           cube_only (Response 200 (Some bad_gcode_result)) bad_gcode_result example_stats).
  - vm_compute. reflexivity.
  - vm_compute. reflexivity.
  - vm_compute. reflexivity.
  - vm_compute. reflexivity.
  - vm_compute. reflexivity.
  - vm_compute. reflexivity.
  - reflexivity.
  - reflexivity.
  - reflexivity.
  - vm_compute. reflexivity.
  - vm_compute. reflexivity.
  - vm_compute. reflexivity.
  - vm_compute. reflexivity.
  - reflexivity.
  - vm_compute. reflexivity.
  - reflexivity.
  - vm_compute. reflexivity.
  - reflexivity.
  - vm_compute. reflexivity.
Defined.

(** X19: the first line is printed before anything else is done: when the
    standard output cannot encode it (its emoji on a standard output that is
    not UTF-8, a model path with a lone surrogate), [slice_model] stops on
    [UnicodeEncodeError] at once: no file is opened, no request is sent. *)
Theorem slice_model_loading_line_unprintable (stdout_accepts : list Py.piece -> bool)
        (requests_post : Py.request -> Py.exn + response)
        (model_path output_path server_url : pystr) (w : Py.world) :
  Py.printable stdout_accepts (loading_line model_path) = false ->
  slice_model stdout_accepts requests_post model_path output_path server_url w
  = (inl (Py.Raise Py.UnicodeEncodeError), w).
Proof.
  intros H. now rewrite slice_model_run, H.
Qed.

Lemma slice_model_loading_line_unprintable_witness :
  slice_model ascii_stdout service_ok (lit "cube.stl") (lit "out.gcode")
    (lit "http://localhost:8080") cube_only
  = (inl (Py.Raise Py.UnicodeEncodeError), cube_only).
Proof.
  apply (slice_model_loading_line_unprintable ascii_stdout service_ok (lit "cube.stl")
           (lit "out.gcode") (lit "http://localhost:8080") cube_only).
  vm_compute. reflexivity.
Defined.

(** X20: no run of [slice_model] calls [requests.post] more than once, and a
    run that calls it does so for a model file it could read, with the
    request built from that file. *)
Theorem slice_model_at_most_one_request (stdout_accepts : list Py.piece -> bool)
        (requests_post : Py.request -> Py.exn + response)
        (model_path output_path server_url : pystr) (w : Py.world) :
  posts (Py.trace (snd (slice_model stdout_accepts requests_post model_path output_path
                          server_url w)))
  = posts (Py.trace w)
  \/ exists f,
      Py.fs w !! model_path = Some (Py.Regular f)
      /\ posts (Py.trace (snd (slice_model stdout_accepts requests_post model_path
                                 output_path server_url w)))
         = posts (Py.trace w) ++ [slice_request model_path server_url f].
Proof.
  assert (Hquiet : forall evs, posts evs = [] ->
                               posts (Py.trace w ++ evs) = posts (Py.trace w)).
  { intros evs H. now rewrite posts_app, H, app_nil_r. }
  rewrite slice_model_run.
  destruct (Py.printable stdout_accepts (loading_line model_path)); [|now left].
  cbn zeta.
  destruct (Py.fs w !! model_path) as [[f|]|];
    [| left; now apply Hquiet | left; now apply Hquiet].
  destruct (Py.printable stdout_accepts (sending_line server_url));
    [| left; now apply Hquiet].
  right. exists f. split; [reflexivity|].
  assert (Hreq : posts (Py.trace w ++ request_events model_path server_url f)
                 = posts (Py.trace w) ++ [slice_request model_path server_url f]).
  { rewrite posts_app. reflexivity. }
  destruct (requests_post _) as [e|r].
  - exact Hreq.
  - rewrite on_response_sends_nothing. exact Hreq.
Qed.

(** ** The serialization of the configuration *)

Lemma replace_app (old new : N) (s t : pystr) :
  Py.replace old new (s ++ t) = Py.replace old new s ++ Py.replace old new t.
Proof. unfold Py.replace. apply List.map_app. Qed.

Lemma plain_char_facts (c : N) :
  plain_char c = true -> 32 <= c /\ c < 127 /\ c <> 34 /\ c <> 39 /\ c <> 92.
Proof.
  unfold plain_char. intros H.
  repeat (apply andb_prop in H; destruct H as [H ?]).
  repeat match goal with
         | H : negb _ = true |- _ => apply negb_true_iff in H
         | H : (_ =? _) = false |- _ => apply N.eqb_neq in H
         | H : (_ <=? _) = true |- _ => apply N.leb_le in H
         | H : (_ <? _) = true |- _ => apply N.ltb_lt in H
         end.
  auto.
Qed.

Lemma replace_plain (s : pystr) : plain s = true -> Py.replace 39 34 s = s.
Proof.
  induction s as [|c s IH]; intros H; [reflexivity|].
  cbn [plain forallb] in H. apply andb_prop in H as [Hc H].
  apply plain_char_facts in Hc as (_ & _ & _ & Hq & _).
  cbn [Py.replace List.map]. apply N.eqb_neq in Hq. rewrite Hq.
  f_equal. now apply IH.
Qed.

Lemma repr_char_plain (c : N) : plain_char c = true -> repr_char 39 c = [c].
Proof.
  intros H. apply plain_char_facts in H as (Hlo & Hhi & _ & Hq & Hb).
  unfold repr_char.
  destruct (N.eqb_spec c 92); [lia|]. destruct (N.eqb_spec c 39); [lia|].
  destruct (N.eqb_spec c 9); [lia|]. destruct (N.eqb_spec c 10); [lia|].
  destruct (N.eqb_spec c 13); [lia|].
  destruct (N.ltb_spec c 32); [lia|]. destruct (N.eqb_spec c 127); [lia|].
  reflexivity.
Qed.

Lemma repr_str_plain (s : pystr) : plain s = true -> repr_str s = [39] ++ s ++ [39].
Proof.
  intros H. unfold repr_str.
  assert (Hq : existsb (N.eqb 39) s = false).
  { apply not_true_is_false. intros E. apply existsb_exists in E as (c & Hc & Ec).
    apply N.eqb_eq in Ec. subst c.
    unfold plain in H. rewrite forallb_forall in H.
    apply H, plain_char_facts in Hc. lia. }
  rewrite Hq. cbn [andb]. do 2 f_equal.
  induction s as [|c s IH]; [reflexivity|].
  cbn [plain forallb] in H. apply andb_prop in H as [Hc H].
  cbn [List.map List.concat]. rewrite (repr_char_plain c Hc). cbn [app]. f_equal.
  apply IH; [exact H|].
  cbn [existsb] in Hq. now apply orb_false_iff in Hq as [_ Hq].
Qed.

Lemma replace_repr_str_plain (s : pystr) :
  plain s = true -> Py.replace 39 34 (repr_str s) = quoted s.
Proof.
  intros H. rewrite repr_str_plain by exact H.
  rewrite !replace_app, (replace_plain s H). reflexivity.
Qed.

Lemma replace_join_items (d : list (pystr * pystr)) :
  plain_items d = true -> Py.replace 39 34 (join_items d) = json_members d.
Proof.
  induction d as [|[k v] rest IH]; intros H; [reflexivity|].
  cbn [plain_items forallb fst snd] in H.
  apply andb_prop in H as [Hkv H]. apply andb_prop in Hkv as [Hk Hv].
  destruct rest as [|kv rest].
  - cbn [join_items json_members]. rewrite !replace_app.
    now rewrite !replace_repr_str_plain.
  - specialize (IH H).
    change (join_items ((k, v) :: kv :: rest))
      with (repr_str k ++ lit ": " ++ repr_str v ++ lit ", " ++ join_items (kv :: rest)).
    change (json_members ((k, v) :: kv :: rest))
      with (quoted k ++ lit ": " ++ quoted v ++ lit ", " ++ json_members (kv :: rest)).
    rewrite !replace_app. rewrite IH. now rewrite !replace_repr_str_plain.
Qed.

(** X18: for every configuration whose keys and values are made of printable
    ASCII characters other than the quote, the double quote and the
    backslash, [str(config)] with every quote replaced by a double quote is
    the text of the JSON object with these keys and values, double-quoted, in
    the same order; the default presets are such a configuration. *)
Theorem config_serialization_plain (d : list (pystr * pystr)) :
  plain_items d = true ->
  Py.replace 39 34 (str_dict d) = json_object_text d.
Proof.
  intros H. unfold str_dict, json_object_text.
  rewrite !replace_app. now rewrite replace_join_items.
Qed.

Lemma config_serialization_plain_witness :
  Py.replace 39 34 (str_dict config) = json_object_text config.
Proof.
  apply (config_serialization_plain config). reflexivity.
Defined.
